(** * tiff-png: a shallow embedding of [save_tiff_as_png] and [main]

    The repository holds several revisions of one program (src/main.cc
    lines 1-153, src/main.cc lines 154-322, src/unnamed/part_000,
    src/unnamed/part_001).  The embedding follows the revision of
    src/main.cc lines 1-153 (one reusable row buffer, [try]/[catch (...)]
    cleanup); the revision of src/unnamed/part_000, which runs the same
    steps and releases through the destructor of [struct Resources], is
    embedded as [save_tiff_as_png_raii].

    libtiff and libpng are external: each call is a stub whose failures
    are chosen by an oracle ([Env]), and whose observable effect is an
    event appended to the trace of external calls. *)

From Stdlib Require Import ZArith Lia.
From Stdlib Require Import Ascii.
From stdpp Require Import base list strings.

Open Scope Z_scope.

(** ** C integers *)

(** [uint32_t] arithmetic wraps modulo 2^32. *)
Definition u32 (z : Z) : Z := z mod 2 ^ 32.

(** [size_t] arithmetic wraps modulo 2^64. *)
Definition u64 (z : Z) : Z := z mod 2 ^ 64.

(** The largest [tsize_t], a signed 64-bit integer; a signed product
    beyond it overflows, which is undefined behaviour. *)
Definition TSIZE_T_MAX : Z := 2 ^ 63 - 1.

(** The [(uint8_t)] cast. *)
Definition to_u8 (z : Z) : Z := z mod 256.

(** ** Constants of libtiff and libpng used by the code *)

Definition ORIENTATION_TOPLEFT : Z := 1.
Definition PNG_COLOR_TYPE_RGBA : Z := 6.
Definition PNG_INTERLACE_NONE : Z := 0.
Definition PNG_COMPRESSION_TYPE_DEFAULT : Z := 0.
Definition PNG_FILTER_TYPE_DEFAULT : Z := 0.

(** libpng's default [PNG_USER_WIDTH_MAX] and [PNG_USER_HEIGHT_MAX]. *)
Definition PNG_USER_WIDTH_MAX : Z := 1000000.
Definition PNG_USER_HEIGHT_MAX : Z := 1000000.

(** ** Per-pixel transcoding, src/main.cc lines 75-81 *)

Definition red_of (px : Z) : Z := to_u8 (Z.land (Z.shiftr px 16) 255).
Definition green_of (px : Z) : Z := to_u8 (Z.land (Z.shiftr px 8) 255).
Definition blue_of (px : Z) : Z := to_u8 (Z.land px 255).
Definition alpha_of (px : Z) : Z := to_u8 (Z.land (Z.shiftr px 24) 255).

(** The four stores of one pixel into the row buffer.  The index
    [x * 4 + k] is computed in [uint32_t] arithmetic.  An index outside
    the buffer would be a buffer overflow in C; list insert leaves the
    buffer unchanged there. *)
Definition store_pixel (row : list Z) (x px : Z) : list Z :=
  let row := <[Z.to_nat (u32 (u32 (x * 4) + 0)) := red_of px]> row in
  let row := <[Z.to_nat (u32 (u32 (x * 4) + 1)) := green_of px]> row in
  let row := <[Z.to_nat (u32 (u32 (x * 4) + 2)) := blue_of px]> row in
  <[Z.to_nat (u32 (u32 (x * 4) + 3)) := alpha_of px]> row.

(** [raster[(size_t)y * width + x]]: the index is a [size_t], which does
    not wrap for 32-bit operands. *)
Definition raster_at (raster : list Z) (i : Z) : Z := raster !!! Z.to_nat i.

(** The inner loop [for (x = 0; x < width; ++x)], lines 73-82. *)
Definition fill_row (raster : list Z) (width y : Z) (row : list Z) : list Z :=
  fold_left (fun row x => store_pixel row x (raster_at raster (y * width + x)))
    (seqZ 0 width) row.

(** The bytes a pixel becomes, in the order of the stores. *)
Definition pixel_bytes (px : Z) : list Z :=
  [red_of px; green_of px; blue_of px; alpha_of px].

(** ** External collaborators *)

(** What the code reads from a [TIFF*].  [tag_imagewidth] and
    [tag_imagelength] are the [uint32] results of [TIFFGetField] ([None]
    when it returns 0).  [read_rgba_image o] is [TIFFReadRGBAImageOriented] for
    orientation [o]: [None] when it returns 0, otherwise the packed pixel
    it stores for column [x] and row [y].  The other tags are part of the
    image but never read by the code. *)
Record TIFF := mkTIFF {
  tag_imagewidth : option N;
  tag_imagelength : option N;
  tag_bitspersample : Z;
  tag_samplesperpixel : Z;
  tag_photometric : Z;
  read_rgba_image : Z -> option (Z -> Z -> Z)
}.

(** The libpng calls made after [setjmp]; each may raise libpng's
    fatal error, which [longjmp]s back to the [setjmp]. *)
Inductive PngCall :=
| CSetIHDR
| CWriteInfo
| CWriteRow (y : Z)
| CWriteEnd.

(** The outcome of every call that may fail, and the initial contents of
    the buffers returned by the allocators. *)
Record Env := mkEnv {
  tiffmalloc_ok : bool;
  raster_garbage : Z -> Z;
  fopen_ok : bool;
  create_write_struct_ok : bool;
  create_info_struct_ok : bool;
  malloc_ok : bool;
  row_garbage : Z -> Z;
  png_error : PngCall -> bool
}.

(** libpng's own check of the header in [png_set_IHDR] ([png_check_IHDR]):
    a zero dimension or one above the default user limits raises
    [png_error]. *)
Definition png_check_IHDR (width height : Z) : bool :=
  (width =? 0) || (height =? 0) ||
  (PNG_USER_WIDTH_MAX <? width) || (PNG_USER_HEIGHT_MAX <? height).

(** Resources the function acquires. *)
Inductive Res := RRaster | RFile | RPngStruct | RPngInfo | RRow.

#[global] Instance Res_eq_dec : EqDecision Res.
Proof. solve_decision. Defined.

(** Calls to the decoder, the file system and the encoder, in order.
    [EvWriteRow y bytes] is [png_write_row] on the row buffer [bytes]; the
    loop counter [y] at the call is recorded with it. *)
Inductive Event :=
| EvDecode (width height orientation : Z)
| EvFopen (name : list ascii)
| EvIHDR (width height bit_depth color_type interlace compression filter : Z)
| EvWriteInfo
| EvWriteRow (y : Z) (bytes : list Z)
| EvWriteEnd.

(** ** State *)

(** The locals of lines 20-24: a null pointer is [None] / [false]; the
    contents of the two heap buffers travel with their pointers. *)
Record Locals := mkLocals {
  l_raster : option (list Z);
  l_fp : bool;
  l_png_ptr : bool;
  l_info_ptr : bool;
  l_row : option (list Z)
}.

Definition null_locals : Locals := mkLocals None false false false None.

Record St := mkSt {
  locals : Locals;
  live : list Res;
  trace : list Event
}.

Definition init_st : St := mkSt null_locals [] [].

(** ** A state and exception monad *)

(** A step returns, throws a C++ exception, or has undefined behaviour
    ([Undefined]), after which nothing is said of the run. *)
Inductive Outcome (A : Type) :=
| Ok (a : A)
| Thrown (what : string)
| Undefined.
Arguments Ok {A} a.
Arguments Thrown {A} what.
Arguments Undefined {A}.

Definition M (A : Type) : Type := St -> Outcome A * St.

#[global] Instance M_ret : MRet M := fun A a s => (Ok a, s).
#[global] Instance M_bind : MBind M := fun A B f m s =>
  match m s with
  | (Ok a, s') => f a s'
  | (Thrown e, s') => (Thrown e, s')
  | (Undefined, s') => (Undefined, s')
  end.

Definition throw {A} (what : string) : M A := fun s => (Thrown what, s).

Definition undefined {A} : M A := fun s => (Undefined, s).

(** [try { m } catch (...) { h }] *)
Definition try_catch {A} (m : M A) (h : M A) : M A := fun s =>
  match m s with
  | (Ok a, s') => (Ok a, s')
  | (Thrown _, s') => h s'
  | (Undefined, s') => (Undefined, s')
  end.

Definition gets {A} (f : St -> A) : M A := fun s => (Ok (f s), s).

Definition modify (f : St -> St) : M unit := fun s => (Ok tt, f s).

Definition set_locals (f : Locals -> Locals) : M unit :=
  modify (fun s => mkSt (f (locals s)) (live s) (trace s)).

Definition acquire (r : Res) : M unit :=
  modify (fun s => mkSt (locals s) (r :: live s) (trace s)).

Fixpoint remove_res (r : Res) (l : list Res) : list Res :=
  match l with
  | [] => []
  | r' :: l' => if decide (r = r') then l' else r' :: remove_res r l'
  end.

Definition release (r : Res) : M unit :=
  modify (fun s => mkSt (locals s) (remove_res r (live s)) (trace s)).

Definition emit (e : Event) : M unit :=
  modify (fun s => mkSt (locals s) (live s) (trace s ++ [e])).

Definition set_raster (v : option (list Z)) : M unit :=
  set_locals (fun l => mkLocals v (l_fp l) (l_png_ptr l) (l_info_ptr l) (l_row l)).
Definition set_fp (v : bool) : M unit :=
  set_locals (fun l => mkLocals (l_raster l) v (l_png_ptr l) (l_info_ptr l) (l_row l)).
Definition set_png_ptr (v : bool) : M unit :=
  set_locals (fun l => mkLocals (l_raster l) (l_fp l) v (l_info_ptr l) (l_row l)).
Definition set_info_ptr (v : bool) : M unit :=
  set_locals (fun l => mkLocals (l_raster l) (l_fp l) (l_png_ptr l) v (l_row l)).
Definition set_row (v : option (list Z)) : M unit :=
  set_locals (fun l => mkLocals (l_raster l) (l_fp l) (l_png_ptr l) (l_info_ptr l) v).

Definition get_raster : M (list Z) := gets (fun s => default [] (l_raster (locals s))).
Definition get_row : M (list Z) := gets (fun s => default [] (l_row (locals s))).

(** [if (!p) throw std::runtime_error(what);] *)
Definition check (b : bool) (what : string) : M unit :=
  if b then mret () else throw what.

(** ** Stubs of the library calls *)

(** [_TIFFmalloc(s)]: [NULL] when [s] is 0, otherwise [malloc(s)], whose
    buffer, on success, holds [s / 4] uninitialised [uint32_t] words. *)
Definition TIFFmalloc (env : Env) (s : Z) : M (option (list Z)) :=
  if s =? 0 then mret None
  else if tiffmalloc_ok env then
    acquire RRaster;; mret (Some (raster_garbage env <$> seqZ 0 (s / 4)))
  else mret None.

(** Lines 29-30: [tsize_t npixels = (tsize_t)width * (tsize_t)height] is
    a signed 64-bit product (undefined beyond [TSIZE_T_MAX]);
    [npixels * sizeof(uint32_t)] is computed in [size_t], modulo 2^64. *)
Definition alloc_raster (env : Env) (width height : Z) : M (option (list Z)) :=
  let npixels := width * height in
  if TSIZE_T_MAX <? npixels then undefined
  else TIFFmalloc env (u64 (npixels * 4)).

(** The raster [TIFFReadRGBAImageOriented] stores: row-major, [f x y] at
    index [y * width + x]. *)
Definition rgba_raster (f : Z -> Z -> Z) (width height : Z) : list Z :=
  (fun i => f (i mod width) (i / width)) <$> seqZ 0 (width * height).

(** [TIFFReadRGBAImageOriented(tif, width, height, raster, orientation, 0)]
    stores the packed pixels of the image, row-major in the requested
    orientation, into the first [width * height] words of [raster].  Its
    contract requires a raster that long: a shorter one is overrun, and
    the behaviour is undefined. *)
Definition TIFFReadRGBAImageOriented (t : TIFF) (width height : Z) (raster : list Z)
    (orientation : Z) : M bool :=
  emit (EvDecode width height orientation);;
  if Z.of_nat (length raster) <? width * height then undefined else
  match read_rgba_image t orientation with
  | Some f =>
      set_raster (Some (rgba_raster f width height ++
                        drop (Z.to_nat (width * height)) raster));;
      mret true
  | None => mret false
  end.

(** [fopen(png_filename, "wb")] *)
Definition fopen (env : Env) (name : list ascii) : M bool :=
  emit (EvFopen name);;
  if fopen_ok env then acquire RFile;; mret true else mret false.

Definition png_create_write_struct (env : Env) : M bool :=
  if create_write_struct_ok env then acquire RPngStruct;; mret true
  else mret false.

Definition png_create_info_struct (env : Env) : M bool :=
  if create_info_struct_ok env then acquire RPngInfo;; mret true
  else mret false.

(** The [longjmp] of a libpng error lands on [if (setjmp(...))], which
    throws (line 56). *)
Definition png_longjmp {A} : M A := throw "libpng internal processing error".

Definition png_set_IHDR (env : Env)
    (width height bit_depth color_type interlace compression filter : Z)
    : M unit :=
  emit (EvIHDR width height bit_depth color_type interlace compression filter);;
  if png_error env CSetIHDR || png_check_IHDR width height then png_longjmp
  else mret ().

Definition png_write_info (env : Env) : M unit :=
  emit EvWriteInfo;;
  if png_error env CWriteInfo then png_longjmp else mret ().

Definition png_write_row (env : Env) (y : Z) (row : list Z) : M unit :=
  emit (EvWriteRow y row);;
  if png_error env (CWriteRow y) then png_longjmp else mret ().

Definition png_write_end (env : Env) : M unit :=
  emit EvWriteEnd;;
  if png_error env CWriteEnd then png_longjmp else mret ().

(** [malloc(n)]: on success a buffer of [n] uninitialised bytes. *)
Definition malloc_row (env : Env) (n : Z) : M (option (list Z)) :=
  if malloc_ok env then
    acquire RRow;; mret (Some (row_garbage env <$> seqZ 0 n))
  else mret None.

(** [png_destroy_write_struct(&png_ptr, info ? &info_ptr : NULL)] *)
Definition png_destroy_write_struct (with_info : bool) : M unit :=
  release RPngStruct;;
  if with_info then release RPngInfo else mret ().

(** ** [save_tiff_as_png], src/main.cc lines 9-110 *)

(** The row loop, lines 71-85. *)
Fixpoint write_rows (env : Env) (width : Z) (ys : list Z) : M unit :=
  match ys with
  | [] => mret ()
  | y :: ys' =>
      raster ← get_raster;
      row ← get_row;
      let row := fill_row raster width y row in
      set_row (Some row);;
      png_write_row env y row;;
      write_rows env width ys'
  end.

(** Lines 28-87: the body of the [try] block up to [png_write_end]; the
    same steps are lines 44-102 of src/unnamed/part_000. *)
Definition transcode_steps (env : Env) (t : TIFF) (png_filename : list ascii)
    (width height : Z) : M unit :=
  raster ← alloc_raster env width height;
  set_raster raster;;
  check (bool_decide (is_Some raster)) "Failed to allocate raster";;
  ok ← TIFFReadRGBAImageOriented t width height (default [] raster) ORIENTATION_TOPLEFT;
  check ok "TIFFReadRGBAImageOriented failed";;
  fp ← fopen env png_filename;
  set_fp fp;;
  check fp "Failed to open output PNG file";;
  png_ptr ← png_create_write_struct env;
  set_png_ptr png_ptr;;
  check png_ptr "png_create_write_struct failed";;
  info_ptr ← png_create_info_struct env;
  set_info_ptr info_ptr;;
  check info_ptr "png_create_info_struct failed";;
  png_set_IHDR env width height 8 PNG_COLOR_TYPE_RGBA PNG_INTERLACE_NONE
    PNG_COMPRESSION_TYPE_DEFAULT PNG_FILTER_TYPE_DEFAULT;;
  png_write_info env;;
  row ← malloc_row env (width * 4);
  set_row row;;
  check (bool_decide (is_Some row)) "Failed to allocate row buffer";;
  write_rows env width (seqZ 0 height);;
  png_write_end env.

(** Lines 90-93. *)
Definition normal_cleanup : M unit :=
  release RRow;;
  png_destroy_write_struct true;;
  release RFile;;
  release RRaster.

(** The [catch (...)] block, lines 100-106. *)
Definition unified_cleanup : M unit :=
  l ← gets locals;
  (if bool_decide (is_Some (l_row l)) then release RRow else mret ());;
  (if l_png_ptr l then png_destroy_write_struct (l_info_ptr l) else mret ());;
  (if l_fp l then release RFile else mret ());;
  (if bool_decide (is_Some (l_raster l)) then release RRaster else mret ()).

Definition save_tiff_as_png (env : Env) (tif : option TIFF)
    (png_filename : option (list ascii)) : M bool :=
  match tif, png_filename with
  | Some t, Some fn =>
      match tag_imagewidth t, tag_imagelength t with
      | Some w, Some h =>
          let width := Z.of_N w in
          let height := Z.of_N h in
          set_locals (fun _ => null_locals);;
          try_catch
            (transcode_steps env t fn width height;; normal_cleanup;; mret true)
            (unified_cleanup;; mret false)
      | _, _ => mret false
      end
  | _, _ => mret false
  end.

(** ** The revision of src/unnamed/part_000 *)

(** [Resources::~Resources], lines 17-27: the same conditional releases as
    the [catch] block above. *)
Definition Resources_dtor : M unit :=
  l ← gets locals;
  (if bool_decide (is_Some (l_row l)) then release RRow else mret ());;
  (if l_png_ptr l then png_destroy_write_struct (l_info_ptr l) else mret ());;
  (if l_fp l then release RFile else mret ());;
  (if bool_decide (is_Some (l_raster l)) then release RRaster else mret ()).

(** Leaving the scope of [res], normally or by an exception, runs the
    destructor. *)
Definition with_dtor {A} (m : M A) (dtor : M unit) : M A := fun s =>
  match m s with
  | (Undefined, s') => (Undefined, s')
  | (o, s') => let '(_, s'') := dtor s' in (o, s'')
  end.

Definition save_tiff_as_png_raii (env : Env) (tif : option TIFF)
    (png_filename : option (list ascii)) : M unit :=
  match tif, png_filename with
  | Some t, Some fn =>
      match tag_imagewidth t, tag_imagelength t with
      | Some w, Some h =>
          let width := Z.of_N w in
          let height := Z.of_N h in
          set_locals (fun _ => null_locals);;
          with_dtor (transcode_steps env t fn width height) Resources_dtor
      | _, _ => throw "Failed to get image dimensions"
      end
  | _, _ => throw "Invalid arguments to save_tiff_as_png"
  end.

(** ** [main], src/main.cc lines 112-153 *)

(** [std::string::find_last_of(c)]: [None] is [npos]. *)
Fixpoint find_last_of (c : ascii) (s : list ascii) : option nat :=
  match s with
  | [] => None
  | a :: s' =>
      match find_last_of c s' with
      | Some i => Some (S i)
      | None => if decide (a = c) then Some 0%nat else None
      end
  end.

Definition str (s : string) : list ascii := String.list_ascii_of_string s.

(** Lines 133-139. *)
Definition output_file_of (tiff_file : list ascii) : list ascii :=
  let output_file := tiff_file in
  match find_last_of "."%char output_file with
  | Some dot_pos => take dot_pos output_file ++ str ".png"
  | None => output_file ++ str ".png"
  end.

(** The environment of one process run: [TIFFOpen] on each path, and the
    outcomes of the calls made by the conversion. *)
Record World := mkWorld {
  TIFFOpen : list ascii -> option TIFF;
  conv_env : Env
}.

(** [main(argc, argv)] with [argv = argv0 :: args]: [Some] of the exit
    status and the lines printed on [std::cout], or [None] when the process
    does not return from [main], because the conversion has undefined
    behaviour or throws an exception that nothing catches (which calls
    [std::terminate]). *)
Definition main (w : World) (argv0 : list ascii) (args : list (list ascii))
    : option (Z * list (list ascii)) :=
  match args with
  | [] => Some (1, [str "Usage: " ++ argv0 ++ str " <tiff_file>"])
  | tiff_file :: _ =>
      match TIFFOpen w tiff_file with
      | None => Some (1, [str "Error: Could not open TIFF file"])
      | Some tif =>
          let output_file := output_file_of tiff_file in
          match fst (save_tiff_as_png (conv_env w) (Some tif) (Some output_file)
                       init_st) with
          | Ok ok =>
              if ok then Some (0, [str "Saved PNG file: " ++ output_file])
              else Some (1, [str "Failed to convert TIFF to PNG: " ++ output_file])
          | Thrown _ | Undefined => None
          end
      end
  end.

(** ** [main], src/unnamed/part_000 lines 105-151 *)

(** The revision with [struct Resources] reports a failed conversion by
    the exception's [what()] and prints nothing on success. *)
Definition main_raii (w : World) (argv0 : list ascii) (args : list (list ascii))
    : option (Z * list (list ascii)) :=
  match args with
  | [] => Some (1, [str "Usage: " ++ argv0 ++ str " <tiff_file>"])
  | tiff_file :: _ =>
      match TIFFOpen w tiff_file with
      | None => Some (1, [str "Error: Could not open TIFF file"])
      | Some tif =>
          let output_file := output_file_of tiff_file in
          match fst (save_tiff_as_png_raii (conv_env w) (Some tif) (Some output_file)
                       init_st) with
          | Ok _ => Some (0, [])
          | Thrown what => Some (1, [str "Failed to convert TIFF to PNG: " ++ str what])
          | Undefined => None
          end
      end
  end.

(** ** The revisions with one buffer per row *)

(** src/main.cc lines 154-322 and src/unnamed/part_001 allocate one
    buffer per row, keep them in [std::vector<png_bytep> row_pointers]
    and hand them to [png_write_image].  Their state is that of the
    revision above together with the vector; an entry [None] is a null
    pointer. *)
Record StV := mkStV {
  base : St;
  row_pointers : list (option (list Z))
}.

Definition init_stv : StV := mkStV init_st [].

Definition MV (A : Type) : Type := StV -> Outcome A * StV.

#[global] Instance MV_ret : MRet MV := fun A a s => (Ok a, s).
#[global] Instance MV_bind : MBind MV := fun A B f m s =>
  match m s with
  | (Ok a, s') => f a s'
  | (Thrown e, s') => (Thrown e, s')
  | (Undefined, s') => (Undefined, s')
  end.

(** A step that does not touch the vector. *)
Definition lift {A} (m : M A) : MV A := fun sv =>
  let '(o, s') := m (base sv) in (o, mkStV s' (row_pointers sv)).

Definition throwV {A} (what : string) : MV A := fun s => (Thrown what, s).

Definition try_catchV {A} (m : MV A) (h : MV A) : MV A := fun s =>
  match m s with
  | (Ok a, s') => (Ok a, s')
  | (Thrown _, s') => h s'
  | (Undefined, s') => (Undefined, s')
  end.

Definition get_row_pointers : MV (list (option (list Z))) :=
  fun sv => (Ok (row_pointers sv), sv).

Definition set_row_pointers (v : list (option (list Z))) : MV unit :=
  fun sv => (Ok tt, mkStV (base sv) v).

(** The outcome of the allocations of these revisions: that of the storage
    of [row_pointers] ([resize(height)] in part_001, the constructor in
    src/main.cc), that of [row_data] (src/main.cc only), and that of the
    [malloc((size_t)width * 4)] of each row [y]. *)
Record Heap := mkHeap {
  vector_ok : bool;
  row_data_ok : bool;
  row_malloc_ok : Z -> bool
}.

(** Allocating the storage of a [std::vector] of [n] elements: nothing to
    allocate when [n] is 0, otherwise [std::bad_alloc] when the allocation
    fails.  The storage itself is owned by the vector, whose destructor
    frees it. *)
Definition vector_alloc (ok : bool) (n : Z) : MV unit :=
  if (0 <? n) && negb ok then throwV "std::bad_alloc" else mret ().

(** [malloc((size_t)width * 4)] of the iteration for row [y]: whether it
    succeeds is [row_malloc_ok y]. *)
Definition malloc_row_at (env : Env) (row_malloc_ok : Z -> bool) (y n : Z)
    : M (option (list Z)) :=
  if row_malloc_ok y then
    acquire RRow;; mret (Some (row_garbage env <$> seqZ 0 n))
  else mret None.

(** [free(p)]; [free(NULL)] does nothing. *)
Definition free_ptr (p : option (list Z)) : M unit :=
  if bool_decide (is_Some p) then release RRow else mret ().

(** [for (y ...) free(row_pointers[y]);] over the indices [ys]. *)
Fixpoint free_rows (rp : list (option (list Z))) (ys : list Z) : M unit :=
  match ys with
  | [] => mret ()
  | y :: ys' => free_ptr (rp !!! Z.to_nat y);; free_rows rp ys'
  end.

(** The stores of one pixel through [png_bytep ptr = row + x * 4]: the
    offset [x * 4] is a [uint32_t], the [ptr[k]] are pointer arithmetic. *)
Definition store_pixel_ptr (row : list Z) (x px : Z) : list Z :=
  let row := <[Z.to_nat (u32 (x * 4) + 0) := red_of px]> row in
  let row := <[Z.to_nat (u32 (x * 4) + 1) := green_of px]> row in
  let row := <[Z.to_nat (u32 (x * 4) + 2) := blue_of px]> row in
  <[Z.to_nat (u32 (x * 4) + 3) := alpha_of px]> row.

(** The inner loop over [x] of these revisions. *)
Definition fill_row_ptr (raster : list Z) (width y : Z) (row : list Z) : list Z :=
  fold_left (fun row x => store_pixel_ptr row x (raster_at raster (y * width + x)))
    (seqZ 0 width) row.

(** libpng's [png_write_image] on a non-interlaced image: one pass that
    calls [png_write_row] on each row pointer in turn. *)
Fixpoint png_write_rows (env : Env) (rp : list (option (list Z))) (ys : list Z)
    : M unit :=
  match ys with
  | [] => mret ()
  | y :: ys' =>
      png_write_row env y (default [] (rp !!! Z.to_nat y));;
      png_write_rows env rp ys'
  end.

Definition png_write_image (env : Env) (rp : list (option (list Z))) (height : Z)
    : M unit :=
  png_write_rows env rp (seqZ 0 height).

(** *** src/unnamed/part_001 lines 9-121 *)

(** Lines 29-63 of part_001: the steps before the rows, the same as in
    the revision of src/main.cc lines 1-153. *)
Definition header_steps (env : Env) (t : TIFF) (png_filename : list ascii)
    (width height : Z) : M unit :=
  raster ← alloc_raster env width height;
  set_raster raster;;
  check (bool_decide (is_Some raster)) "Failed to allocate raster";;
  ok ← TIFFReadRGBAImageOriented t width height (default [] raster) ORIENTATION_TOPLEFT;
  check ok "TIFFReadRGBAImageOriented failed";;
  fp ← fopen env png_filename;
  set_fp fp;;
  check fp "Failed to open output PNG file";;
  png_ptr ← png_create_write_struct env;
  set_png_ptr png_ptr;;
  check png_ptr "png_create_write_struct failed";;
  info_ptr ← png_create_info_struct env;
  set_info_ptr info_ptr;;
  check info_ptr "png_create_info_struct failed";;
  png_set_IHDR env width height 8 PNG_COLOR_TYPE_RGBA PNG_INTERLACE_NONE
    PNG_COMPRESSION_TYPE_DEFAULT PNG_FILTER_TYPE_DEFAULT;;
  png_write_info env.

(** Lines 69-92: one buffer per row, filled and stored in
    [row_pointers[y]]. *)
Fixpoint build_rows_vec (env : Env) (row_malloc_ok : Z -> bool) (width : Z)
    (ys : list Z) : MV unit :=
  match ys with
  | [] => mret ()
  | y :: ys' =>
      row ← lift (malloc_row_at env row_malloc_ok y (width * 4));
      match row with
      | None => throwV "Failed to allocate row buffer"
      | Some row =>
          raster ← lift get_raster;
          let row := fill_row_ptr raster width y row in
          rp ← get_row_pointers;
          set_row_pointers (<[Z.to_nat y := Some row]> rp);;
          build_rows_vec env row_malloc_ok width ys'
      end
  end.

(** The [catch (...)] block, lines 110-119, after the loop over
    [row_pointers]. *)
Definition vec_cleanup : M unit :=
  l ← gets locals;
  (if l_png_ptr l then png_destroy_write_struct (l_info_ptr l) else mret ());;
  (if l_fp l then release RFile else mret ());;
  (if bool_decide (is_Some (l_raster l)) then release RRaster else mret ()).

(** The [catch (...)] block reads the values last stored in [row_pointers]
    and in the other locals. *)
Definition save_tiff_as_png_vec (env : Env) (heap : Heap)
    (tif : option TIFF) (png_filename : option (list ascii)) : MV bool :=
  match tif, png_filename with
  | Some t, Some fn =>
      match tag_imagewidth t, tag_imagelength t with
      | Some w, Some h =>
          let width := Z.of_N w in
          let height := Z.of_N h in
          lift (set_locals (fun _ => null_locals));;
          set_row_pointers [];;
          try_catchV
            (lift (header_steps env t fn width height);;
             vector_alloc (vector_ok heap) height;;
             set_row_pointers (replicate (Z.to_nat height) None);;
             build_rows_vec env (row_malloc_ok heap) width (seqZ 0 height);;
             rp ← get_row_pointers;
             lift (png_write_image env rp height);;
             lift (png_write_end env);;
             lift (free_rows rp (seqZ 0 height));;
             lift (png_destroy_write_struct true;; release RFile;; release RRaster);;
             mret true)
            (rp ← get_row_pointers;
             lift (free_rows rp (seqZ 0 (Z.of_nat (length rp))));;
             lift vec_cleanup;;
             mret false)
      | _, _ => mret false
      end
  | _, _ => mret false
  end.

(** *** src/main.cc lines 154-279 *)

(** Lines 234-265: a failed [malloc] frees the rows allocated before it,
    the libpng structures, the file and the raster, and returns [false]
    (lines 238-245). *)
Fixpoint build_rows_manual (env : Env) (row_malloc_ok : Z -> bool) (width : Z)
    (ys : list Z) : MV bool :=
  match ys with
  | [] => mret true
  | y :: ys' =>
      row ← lift (malloc_row_at env row_malloc_ok y (width * 4));
      match row with
      | None =>
          rp ← get_row_pointers;
          lift (free_rows rp (seqZ 0 y));;
          lift (png_destroy_write_struct true;; release RFile;; release RRaster);;
          mret false
      | Some row =>
          raster ← lift get_raster;
          let row := fill_row_ptr raster width y row in
          rp ← get_row_pointers;
          set_row_pointers (<[Z.to_nat y := Some row]> rp);;
          build_rows_manual env row_malloc_ok width ys'
      end
  end.

(** A [longjmp] of libpng once [row_pointers] and [row_data] (lines
    231-232) are constructed would skip their destructors on its way back
    to the [setjmp] of line 213: a [setjmp]/[longjmp] pair that replaced by
    [catch] and [throw] would run non-trivial destructors has undefined
    behaviour ([csetjmp.syn]). *)
Definition longjmp_past_vectors {A} (m : MV A) : MV A := fun s =>
  match m s with
  | (Thrown _, s') => (Undefined, s')
  | r => r
  end.

(** Every failure before [setjmp] returns [false] after its own cleanup; a
    [longjmp] of libpng in [png_set_IHDR] or [png_write_info] lands on the
    [setjmp] handler of lines 213-220, which frees the libpng structures,
    the file and the raster.  The [std::bad_alloc] a vector constructor
    may throw is not caught in this function. *)
Definition save_tiff_as_png_manual (env : Env) (heap : Heap)
    (tif : option TIFF) (png_filename : option (list ascii)) : MV bool :=
  match tif, png_filename with
  | Some t, Some fn =>
      match tag_imagewidth t, tag_imagelength t with
      | Some w, Some h =>
          let width := Z.of_N w in
          let height := Z.of_N h in
          lift (set_locals (fun _ => null_locals));;
          set_row_pointers [];;
          raster ← lift (alloc_raster env width height);
          match raster with
          | None => mret false
          | Some r =>
              lift (set_raster (Some r));;
              ok ← lift (TIFFReadRGBAImageOriented t width height r ORIENTATION_TOPLEFT);
              if negb ok then lift (release RRaster);; mret false else
              fp ← lift (fopen env fn);
              if negb fp then lift (release RRaster);; mret false else
              png_ptr ← lift (png_create_write_struct env);
              if negb png_ptr then lift (release RFile;; release RRaster);; mret false else
              info_ptr ← lift (png_create_info_struct env);
              if negb info_ptr then
                lift (png_destroy_write_struct false;; release RFile;; release RRaster);;
                mret false
              else
              ok ← try_catchV
                (lift (png_set_IHDR env width height 8 PNG_COLOR_TYPE_RGBA
                         PNG_INTERLACE_NONE PNG_COMPRESSION_TYPE_DEFAULT
                         PNG_FILTER_TYPE_DEFAULT);;
                 lift (png_write_info env);;
                 mret true)
                (lift (png_destroy_write_struct true;; release RFile;; release RRaster);;
                 mret false);
              if negb ok then mret false else
              vector_alloc (vector_ok heap) height;;
              set_row_pointers (replicate (Z.to_nat height) None);;
              vector_alloc (row_data_ok heap) (width * 4);;
              ok ← build_rows_manual env (row_malloc_ok heap) width (seqZ 0 height);
              if negb ok then mret false else
              rp ← get_row_pointers;
              longjmp_past_vectors
                (lift (png_write_image env rp height);; lift (png_write_end env));;
              lift (free_rows rp (seqZ 0 height));;
              lift (png_destroy_write_struct true;; release RFile;; release RRaster);;
              mret true
          end
      | _, _ => mret false
      end
  | _, _ => mret false
  end.

(** *** [main], src/main.cc lines 281-322 and src/unnamed/part_001 lines
    124-165 *)

(** The two [main]s differ from the one of lines 112-153 only in the
    conversion they call and in the line printed on success. *)
Definition main_manual (w : World) (heap : Heap) (argv0 : list ascii)
    (args : list (list ascii)) : option (Z * list (list ascii)) :=
  match args with
  | [] => Some (1, [str "Usage: " ++ argv0 ++ str " <tiff_file>"])
  | tiff_file :: _ =>
      match TIFFOpen w tiff_file with
      | None => Some (1, [str "Error: Could not open TIFF file"])
      | Some tif =>
          let output_file := output_file_of tiff_file in
          match fst (save_tiff_as_png_manual (conv_env w) heap (Some tif) (Some output_file)
                       init_stv) with
          | Ok ok =>
              if ok then Some (0, [str "Wrote PNG: " ++ output_file])
              else Some (1, [str "Failed to convert TIFF to PNG: " ++ output_file])
          | Thrown _ | Undefined => None
          end
      end
  end.

Definition main_vec (w : World) (heap : Heap) (argv0 : list ascii)
    (args : list (list ascii)) : option (Z * list (list ascii)) :=
  match args with
  | [] => Some (1, [str "Usage: " ++ argv0 ++ str " <tiff_file>"])
  | tiff_file :: _ =>
      match TIFFOpen w tiff_file with
      | None => Some (1, [str "Error: Could not open TIFF file"])
      | Some tif =>
          let output_file := output_file_of tiff_file in
          match fst (save_tiff_as_png_vec (conv_env w) heap (Some tif) (Some output_file)
                       init_stv) with
          | Ok ok =>
              if ok then Some (0, [str "Wrote PNG: " ++ output_file])
              else Some (1, [str "Failed to convert TIFF to PNG: " ++ output_file])
          | Thrown _ | Undefined => None
          end
      end
  end.

(** ** Descriptions of runs, used by the proofs *)

(** The bytes of row [y] of a raster: its pixels' bytes, in order. *)
Definition row_bytes (raster : list Z) (width y : Z) : list Z :=
  mjoin ((fun x => pixel_bytes (raster_at raster (y * width + x))) <$> seqZ 0 width).

(** The rows [png_write_row] is called on, up to and including the first
    that fails, and whether one failed. *)
Fixpoint rows_until_error (err : Z -> bool) (ys : list Z) : list Z * bool :=
  match ys with
  | [] => ([], false)
  | y :: ys' =>
      if err y then ([y], true)
      else let '(r, e) := rows_until_error err ys' in (y :: r, e)
  end.

(** The resources the non-null locals point to, most recent first. *)
Definition resources_of (l : Locals) : list Res :=
  (if bool_decide (is_Some (l_row l)) then [RRow] else []) ++
  (if l_info_ptr l then [RPngInfo] else []) ++
  (if l_png_ptr l then [RPngStruct] else []) ++
  (if l_fp l then [RFile] else []) ++
  (if bool_decide (is_Some (l_raster l)) then [RRaster] else []).

(** [npixels] overflows [tsize_t]. *)
Definition npixels_overflow (width height : Z) : bool := TSIZE_T_MAX <? width * height.

(** The byte count handed to [_TIFFmalloc]. *)
Definition raster_bytes (width height : Z) : Z := u64 (width * height * 4).

(** [_TIFFmalloc] returns a buffer. *)
Definition raster_alloc_ok (env : Env) (width height : Z) : bool :=
  negb (raster_bytes width height =? 0) && tiffmalloc_ok env.

(** The buffer holds fewer than [width * height] words. *)
Definition raster_short (width height : Z) : bool :=
  raster_bytes width height / 4 <? width * height.

(** The behaviour is undefined at the raster: [npixels] overflows, or the
    decoder is handed a buffer shorter than the image. *)
Definition raster_undefined (env : Env) (width height : Z) : bool :=
  npixels_overflow width height ||
  raster_alloc_ok env width height && raster_short width height.

(** The raster's byte count [width * height * 4] fits in a [size_t]. *)
Definition raster_fits (width height : Z) : bool := width * height * 4 <? 2 ^ 64.

(** The raster of an image whose dimensions can be read fits in a [size_t]. *)
Definition image_fits (t : TIFF) : bool :=
  match tag_imagewidth t, tag_imagelength t with
  | Some w, Some h => raster_fits (Z.of_N w) (Z.of_N h)
  | _, _ => true
  end.

(** Every step of the conversion succeeds. *)
Definition conversion_ok (env : Env) (t : TIFF) (width height : Z) : bool :=
  raster_alloc_ok env width height &&
  bool_decide (is_Some (read_rgba_image t ORIENTATION_TOPLEFT)) &&
  fopen_ok env && create_write_struct_ok env && create_info_struct_ok env &&
  negb (png_error env CSetIHDR || png_check_IHDR width height) &&
  negb (png_error env CWriteInfo) && malloc_ok env &&
  negb (rows_until_error (fun y => png_error env (CWriteRow y)) (seqZ 0 height)).2 &&
  negb (png_error env CWriteEnd).

(** The external calls of a conversion, step by step. *)
Definition emitted_trace (env : Env) (t : TIFF) (fn : list ascii)
    (width height : Z) : list Event :=
  if npixels_overflow width height || negb (raster_alloc_ok env width height) then [] else
  if raster_short width height then [EvDecode width height ORIENTATION_TOPLEFT] else
  match read_rgba_image t ORIENTATION_TOPLEFT with
  | None => [EvDecode width height ORIENTATION_TOPLEFT]
  | Some f =>
      [EvDecode width height ORIENTATION_TOPLEFT; EvFopen fn] ++
      if negb (fopen_ok env && create_write_struct_ok env &&
               create_info_struct_ok env) then [] else
      [EvIHDR width height 8 PNG_COLOR_TYPE_RGBA PNG_INTERLACE_NONE
         PNG_COMPRESSION_TYPE_DEFAULT PNG_FILTER_TYPE_DEFAULT] ++
      if png_error env CSetIHDR || png_check_IHDR width height then [] else
      [EvWriteInfo] ++
      if png_error env CWriteInfo || negb (malloc_ok env) then [] else
      let '(ys, e) :=
        rows_until_error (fun y => png_error env (CWriteRow y)) (seqZ 0 height) in
      ((fun y => EvWriteRow y (row_bytes (rgba_raster f width height) width y)) <$> ys) ++
      if e then [] else [EvWriteEnd]
  end.

(** The row indices of the [png_write_row] calls of a trace. *)
Fixpoint row_indices (tr : list Event) : list Z :=
  match tr with
  | [] => []
  | EvWriteRow y _ :: tr' => y :: row_indices tr'
  | _ :: tr' => row_indices tr'
  end.

(** The [png_write_row] calls of a trace, in order. *)
Fixpoint row_writes (tr : list Event) : list Event :=
  match tr with
  | [] => []
  | EvWriteRow y bytes :: tr' => EvWriteRow y bytes :: row_writes tr'
  | _ :: tr' => row_writes tr'
  end.

(** The number of [png_write_end] calls of a trace. *)
Fixpoint count_end (tr : list Event) : nat :=
  match tr with
  | [] => 0%nat
  | EvWriteEnd :: tr' => S (count_end tr')
  | _ :: tr' => count_end tr'
  end.

(** The number of decode calls of a trace. *)
Fixpoint count_decode (tr : list Event) : nat :=
  match tr with
  | [] => 0%nat
  | EvDecode _ _ _ :: tr' => S (count_decode tr')
  | _ :: tr' => count_decode tr'
  end.

(** Every step of a call of [save_tiff_as_png] succeeds. *)
Definition all_steps_ok (env : Env) (tif : option TIFF)
    (png_filename : option (list ascii)) : bool :=
  match tif, png_filename with
  | Some t, Some _ =>
      match tag_imagewidth t, tag_imagelength t with
      | Some w, Some h => conversion_ok env t (Z.of_N w) (Z.of_N h)
      | _, _ => false
      end
  | _, _ => false
  end.

(** [env] with other initial contents of the two allocated buffers. *)
Definition with_garbage (env : Env) (rg wg : Z -> Z) : Env :=
  mkEnv (tiffmalloc_ok env) rg (fopen_ok env) (create_write_struct_ok env)
    (create_info_struct_ok env) (malloc_ok env) wg (png_error env).

(** The steps before the first row all succeed, on a raster that holds
    the image. *)
Definition header_ok (env : Env) (t : TIFF) (width height : Z) : bool :=
  negb (npixels_overflow width height) && raster_alloc_ok env width height &&
  negb (raster_short width height) &&
  bool_decide (is_Some (read_rgba_image t ORIENTATION_TOPLEFT)) &&
  fopen_ok env && create_write_struct_ok env && create_info_struct_ok env &&
  negb (png_error env CSetIHDR || png_check_IHDR width height) &&
  negb (png_error env CWriteInfo).

(** The external calls of the steps before the first row. *)
Definition header_trace (env : Env) (t : TIFF) (fn : list ascii)
    (width height : Z) : list Event :=
  if npixels_overflow width height || negb (raster_alloc_ok env width height) then [] else
  if raster_short width height then [EvDecode width height ORIENTATION_TOPLEFT] else
  match read_rgba_image t ORIENTATION_TOPLEFT with
  | None => [EvDecode width height ORIENTATION_TOPLEFT]
  | Some f =>
      [EvDecode width height ORIENTATION_TOPLEFT; EvFopen fn] ++
      if negb (fopen_ok env && create_write_struct_ok env &&
               create_info_struct_ok env) then [] else
      [EvIHDR width height 8 PNG_COLOR_TYPE_RGBA PNG_INTERLACE_NONE
         PNG_COMPRESSION_TYPE_DEFAULT PNG_FILTER_TYPE_DEFAULT] ++
      if png_error env CSetIHDR || png_check_IHDR width height then [] else
      [EvWriteInfo]
  end.

(** The raster the decoder fills ([[]] when it fails). *)
Definition decoded (t : TIFF) (width height : Z) : list Z :=
  match read_rgba_image t ORIENTATION_TOPLEFT with
  | Some f => rgba_raster f width height
  | None => []
  end.

(** Every [png_write_row] and the [png_write_end] succeed. *)
Definition write_ok (env : Env) (height : Z) : bool :=
  negb (rows_until_error (fun y => png_error env (CWriteRow y)) (seqZ 0 height)).2 &&
  negb (png_error env CWriteEnd).

(** The calls writing the rows of [raster] and ending the image. *)
Definition rows_trace (env : Env) (raster : list Z) (width height : Z) : list Event :=
  let '(ys, e) :=
    rows_until_error (fun y => png_error env (CWriteRow y)) (seqZ 0 height) in
  ((fun y => EvWriteRow y (row_bytes raster width y)) <$> ys) ++
  if e then [] else [EvWriteEnd].

(** The [what()] of the exception a failing step throws in the revision
    of part_000: that of the first step that fails. *)
Definition first_failure (env : Env) (t : TIFF) (width height : Z) : option string :=
  if negb (raster_alloc_ok env width height) then Some "Failed to allocate raster" else
  if negb (bool_decide (is_Some (read_rgba_image t ORIENTATION_TOPLEFT)))
  then Some "TIFFReadRGBAImageOriented failed" else
  if negb (fopen_ok env) then Some "Failed to open output PNG file" else
  if negb (create_write_struct_ok env) then Some "png_create_write_struct failed" else
  if negb (create_info_struct_ok env) then Some "png_create_info_struct failed" else
  if png_error env CSetIHDR || png_check_IHDR width height || png_error env CWriteInfo
  then Some "libpng internal processing error" else
  if negb (malloc_ok env) then Some "Failed to allocate row buffer" else
  if negb (write_ok env height) then Some "libpng internal processing error" else
  None.

(** The [what()] of the exception [save_tiff_as_png] of part_000 throws
    on an open image, if any. *)
Definition save_what (env : Env) (tif : TIFF) : option string :=
  match tag_imagewidth tif, tag_imagelength tif with
  | Some w, Some h => first_failure env tif (Z.of_N w) (Z.of_N h)
  | _, _ => Some "Failed to get image dimensions"
  end.

(** The number of leading indices of [ys] whose allocation succeeds. *)
Fixpoint ok_prefix (p : Z -> bool) (ys : list Z) : nat :=
  match ys with
  | [] => 0%nat
  | y :: ys' => if p y then S (ok_prefix p ys') else 0%nat
  end.

(** The row pointers [0 .. k-1], each holding row [y] as [g y]. *)
Definition built (g : Z -> list Z) (k : nat) : list (option (list Z)) :=
  (fun y => Some (g y)) <$> seqZ 0 (Z.of_nat k).

(** ** Concrete inputs *)

(** Every call succeeds. *)
Definition env_ok : Env :=
  mkEnv true (fun _ => 7) true true true true (fun _ => 9) (fun _ => false).

(** An image of [w] by [h] pixels whose decoded packed pixels are given by
    [f]; the descriptor tags are [bits], [spp] and [photometric]. *)
Definition image (w h : N) (bits spp photometric : Z) (f : Z -> Z -> Z) : TIFF :=
  mkTIFF (Some w) (Some h) bits spp photometric (fun _ => Some f).

(** A world in which only [valid.tif] can be opened, as a 1x1 image. *)
Definition world_valid_only : World :=
  mkWorld (fun p => if decide (p = str "valid.tif")
                    then Some (image 1 1 8 3 2 (fun _ _ => 0)) else None)
    env_ok.

Definition run (env : Env) (t : TIFF) (fn : list ascii) : Outcome bool * St :=
  save_tiff_as_png env (Some t) (Some fn) init_st.

(** The third row buffer cannot be allocated. *)
Definition third_row_fails (y : Z) : bool := negb (y =? 2).

(** libpng fails on the write of the second row. *)
Definition env_row1_error : Env :=
  mkEnv true (fun _ => 7) true true true true (fun _ => 9)
    (fun c => match c with CWriteRow 1 => true | _ => false end).




(** ** Proofs *)

Example run_2x2 :
  trace (snd (run env_ok (image 2 2 8 3 2 (fun x y => x + 16 * y)) (str "a.png")))
  = [EvDecode 2 2 1; EvFopen (str "a.png"); EvIHDR 2 2 8 6 0 0 0; EvWriteInfo;
     EvWriteRow 0 [0; 0; 0; 0; 0; 0; 1; 0]; EvWriteRow 1 [0; 0; 16; 0; 0; 0; 17; 0];
     EvWriteEnd].
Proof. vm_compute. reflexivity. Qed.

(** ** The per-pixel stores and the row loop *)

Lemma u32_small z : 0 <= z < 2 ^ 32 -> u32 z = z.
Proof. intros. unfold u32. apply Z.mod_small. lia. Qed.

Lemma store_index x k :
  0 <= x -> x * 4 + 3 < 2 ^ 32 -> 0 <= k <= 3 ->
  u32 (u32 (x * 4) + k) = 4 * x + k.
Proof. intros. rewrite (u32_small (x * 4)) by lia. rewrite u32_small by lia. lia. Qed.

Lemma to_u8_land_255 a : to_u8 (Z.land a 255) = Z.land a 255.
Proof.
  unfold to_u8. change 255 with (Z.ones 8). rewrite Z.land_ones by lia.
  rewrite Zmod_mod. reflexivity.
Qed.

Lemma length_store_pixel row x px : length (store_pixel row x px) = length row.
Proof. unfold store_pixel. now rewrite !length_insert. Qed.

Ltac store_indices x :=
  rewrite ?(store_index x 0), ?(store_index x 1), ?(store_index x 2),
    ?(store_index x 3) by lia.

Lemma store_pixel_lookup_ne row x px i :
  0 <= x -> x * 4 + 3 < 2 ^ 32 ->
  (Z.of_nat i < 4 * x \/ 4 * x + 3 < Z.of_nat i) ->
  store_pixel row x px !! i = row !! i.
Proof.
  intros Hx Hb Hi. unfold store_pixel. store_indices x.
  rewrite !list_lookup_insert_ne by lia. reflexivity.
Qed.

Lemma store_pixel_lookup_eq row x px k :
  0 <= x -> x * 4 + 3 < 2 ^ 32 -> 4 * x + 3 < Z.of_nat (length row) ->
  0 <= k <= 3 ->
  store_pixel row x px !! Z.to_nat (4 * x + k) = pixel_bytes px !! Z.to_nat k.
Proof.
  intros Hx Hb Hl Hk. unfold store_pixel. store_indices x.
  rewrite !list_lookup_insert, !length_insert.
  assert (k = 0 \/ k = 1 \/ k = 2 \/ k = 3) as [-> | [-> | [-> | ->]]] by lia;
    repeat (case_decide; [try (exfalso; lia); reflexivity|]);
    exfalso; lia.
Qed.

Lemma fill_row_prefix raster width y row n :
  (Z.of_nat n <= width) -> width * 4 <= 2 ^ 32 ->
  length row = Z.to_nat (width * 4) ->
  let row' := fold_left
      (fun row x => store_pixel row x (raster_at raster (y * width + x)))
      (seqZ 0 (Z.of_nat n)) row in
  length row' = length row /\
  forall x k, 0 <= x < Z.of_nat n -> 0 <= k <= 3 ->
    row' !! Z.to_nat (4 * x + k) =
    pixel_bytes (raster_at raster (y * width + x)) !! Z.to_nat k.
Proof.
  intros Hn Hw Hl. induction n as [|n IH]; cbn zeta.
  - split; [reflexivity|]. intros. lia.
  - rewrite seqZ_S, fold_left_app. simpl.
    destruct IH as [IHl IHx]; [lia|].
    split; [rewrite length_store_pixel; exact IHl|].
    intros x k Hx Hk.
    destruct (decide (x = Z.of_nat n)) as [->|Hne].
    + apply store_pixel_lookup_eq; lia.
    + rewrite store_pixel_lookup_ne by lia. apply IHx; lia.
Qed.

Lemma fill_row_lookup raster width y row x k :
  0 <= width -> width * 4 <= 2 ^ 32 -> length row = Z.to_nat (width * 4) ->
  0 <= x < width -> 0 <= k <= 3 ->
  fill_row raster width y row !! Z.to_nat (4 * x + k) =
  pixel_bytes (raster_at raster (y * width + x)) !! Z.to_nat k.
Proof.
  intros. unfold fill_row.
  destruct (fill_row_prefix raster width y row (Z.to_nat width)) as [_ Hp];
    [lia | lia | lia |].
  rewrite Z2Nat.id in Hp by lia. apply Hp; lia.
Qed.

Lemma length_fill_row raster width y row :
  length (fill_row raster width y row) = length row.
Proof.
  unfold fill_row. generalize row.
  induction (seqZ 0 width) as [|x xs IH]; intros r; simpl; [reflexivity|].
  rewrite IH. apply length_store_pixel.
Qed.

Lemma mjoin_map_block {A B} (f : A -> list B) (l : list A) (x k : nat) :
  (forall a, length (f a) = 4%nat) -> (k < 4)%nat ->
  mjoin (f <$> l) !! (4 * x + k)%nat = (l !! x) ≫= (fun a => f a !! k).
Proof.
  intros Hf Hk. revert x. induction l as [|a l IH]; intros x; [reflexivity|].
  change (mjoin (f <$> a :: l)) with (f a ++ mjoin (f <$> l)).
  destruct x as [|x].
  - rewrite lookup_app_l by (rewrite Hf; lia). reflexivity.
  - rewrite lookup_app_r by (rewrite Hf; lia). rewrite Hf.
    replace (4 * S x + k - 4)%nat with (4 * x + k)%nat by lia. apply IH.
Qed.

Lemma length_mjoin_map_block {A B} (f : A -> list B) (l : list A) :
  (forall a, length (f a) = 4%nat) ->
  length (mjoin (f <$> l)) = (4 * length l)%nat.
Proof.
  intros Hf. induction l as [|a l IH]; [reflexivity|].
  change (length (f a ++ mjoin (f <$> l)) = (4 * S (length l))%nat).
  rewrite length_app, Hf, IH. lia.
Qed.

(** The row buffer after the inner loop is the concatenation of the bytes
    of the row's pixels, whatever it held before. *)
Lemma fill_row_concat raster width y row :
  0 <= width -> width * 4 <= 2 ^ 32 -> length row = Z.to_nat (width * 4) ->
  fill_row raster width y row = row_bytes raster width y.
Proof.
  intros Hw Hb Hl. unfold row_bytes.
  apply (list_eq_same_length _ _ (Z.to_nat (width * 4))).
  - rewrite (length_mjoin_map_block _ (seqZ 0 width)) by reflexivity.
    rewrite length_seqZ. lia.
  - rewrite length_fill_row. exact Hl.
  - intros i a b Hi Ha Hb'.
    pose proof (Nat.div_mod_eq i 4) as Hdm.
    pose proof (Nat.mod_upper_bound i 4) as Hk.
    set (x := (i / 4)%nat) in *. set (k := (i mod 4)%nat) in *.
    assert (Hxw : Z.of_nat x < width) by lia.
    rewrite Hdm in Hb'. rewrite mjoin_map_block in Hb' by (reflexivity || lia).
    rewrite lookup_seqZ_lt in Hb' by lia. simpl in Hb'.
    replace i with (Z.to_nat (4 * Z.of_nat x + Z.of_nat k)) in Ha by lia.
    rewrite fill_row_lookup in Ha by lia.
    rewrite Nat2Z.id in Ha. rewrite Z.add_0_l in Hb'. congruence.
Qed.

(** ** C1 *)

(** C1: every packed pixel [px] of a row becomes four consecutive bytes of
    the row buffer, red [(px >> 16) & 0xFF], green [(px >> 8) & 0xFF],
    blue [px & 0xFF] and alpha [(px >> 24) & 0xFF] in this order; the
    stores of one pixel touch no other byte; and [0x80304050] becomes
    [0x30, 0x40, 0x50, 0x80].  The bound on [width] keeps the [uint32_t]
    index [x * 4 + k] from wrapping; libpng's header check
    ([png_check_IHDR]) enforces it before any row is written. *)
Theorem whole_raster_pixel_rgba (raster : list Z) (width y : Z) (row : list Z) :
  0 <= width -> width * 4 <= 2 ^ 32 -> length row = Z.to_nat (width * 4) ->
  (forall x, 0 <= x < width ->
     let px := raster_at raster (y * width + x) in
     let row' := fill_row raster width y row in
     row' !! Z.to_nat (4 * x) = Some (Z.land (Z.shiftr px 16) 255) /\
     row' !! Z.to_nat (4 * x + 1) = Some (Z.land (Z.shiftr px 8) 255) /\
     row' !! Z.to_nat (4 * x + 2) = Some (Z.land px 255) /\
     row' !! Z.to_nat (4 * x + 3) = Some (Z.land (Z.shiftr px 24) 255)) /\
  (forall (r : list Z) x px (i : nat), 0 <= x -> x * 4 + 3 < 2 ^ 32 ->
     (Z.of_nat i < 4 * x \/ 4 * x + 3 < Z.of_nat i) ->
     store_pixel r x px !! i = r !! i) /\
  pixel_bytes 0x80304050 = [0x30; 0x40; 0x50; 0x80].
Proof.
  intros Hw Hb Hl. split; [|split].
  - intros x Hx. cbn zeta.
    rewrite <- (Z.add_0_r (4 * x)) at 1.
    rewrite !fill_row_lookup by lia. unfold pixel_bytes, red_of, green_of,
      blue_of, alpha_of. simpl. rewrite !to_u8_land_255. auto.
  - intros. apply store_pixel_lookup_ne; assumption.
  - reflexivity.
Qed.

Lemma whole_raster_pixel_rgba_witness :
  (0 <= 1 /\ 1 * 4 <= 2 ^ 32 /\ length [0; 0; 0; 0] = Z.to_nat (1 * 4)) /\
  fill_row [0x80304050] 1 0 [0; 0; 0; 0] !! Z.to_nat (4 * 0) = Some 0x30.
Proof.
  split; [repeat split; lia || reflexivity|].
  destruct (whole_raster_pixel_rgba [0x80304050] 1 0 [0; 0; 0; 0])
    as [H _]; [lia | lia | reflexivity |].
  destruct (H 0) as [H0 _]; [lia|]. rewrite H0. reflexivity.
Defined.

(** ** Symbolic execution of the row loop *)

Ltac unfold_monad :=
  unfold mbind, M_bind, mret, M_ret, gets, modify, set_locals, set_raster,
    set_fp, set_png_ptr, set_info_ptr, set_row, get_raster, get_row, emit,
    acquire, release, throw, undefined, check, png_longjmp in *.

Lemma write_rows_run env width ys s raster rb o s' :
  0 <= width -> width * 4 <= 2 ^ 32 ->
  l_raster (locals s) = Some raster -> l_row (locals s) = Some rb ->
  length rb = Z.to_nat (width * 4) ->
  write_rows env width ys s = (o, s') ->
  let ru := rows_until_error (fun y => png_error env (CWriteRow y)) ys in
  o = (if ru.2 then Thrown "libpng internal processing error" else Ok ()) /\
  live s' = live s /\
  trace s' = trace s ++
    ((fun y => EvWriteRow y (row_bytes raster width y)) <$> ru.1) /\
  exists rb', length rb' = length rb /\
    locals s' = mkLocals (Some raster) (l_fp (locals s)) (l_png_ptr (locals s))
                  (l_info_ptr (locals s)) (Some rb').
Proof.
  intros Hw Hb. revert s rb.
  induction ys as [|y ys IH]; intros [[lr lf lp li lw] lv tr] rb Hr Hrow Hl Hrun;
    simpl in Hr, Hrow; subst lr lw.
  - simpl in Hrun. injection Hrun as <- <-. simpl.
    rewrite app_nil_r. repeat split; auto. exists rb. auto.
  - cbn [write_rows] in Hrun. unfold png_write_row in Hrun. unfold_monad.
    simpl in Hrun. cbn zeta. cbn [rows_until_error].
    rewrite (fill_row_concat raster width y rb) in Hrun by lia.
    destruct (png_error env (CWriteRow y)) eqn:He.
    + injection Hrun as <- <-. simpl. repeat split; auto.
      exists (row_bytes raster width y).
      split; [|reflexivity]. rewrite <- (fill_row_concat raster width y rb) by lia.
      apply length_fill_row.
    + destruct (rows_until_error _ ys) as [r e] eqn:Hru. simpl.
      edestruct IH as (Ho & Hlv & Htr & rb' & Hrb' & Hloc);
        [| | | exact Hrun |]; simpl; [reflexivity | reflexivity | |].
      * rewrite <- (fill_row_concat raster width y rb) by lia.
        rewrite length_fill_row. exact Hl.
      * simpl in Ho, Hlv, Htr, Hloc.
        repeat split; auto.
        -- rewrite Htr. simpl. rewrite <- app_assoc. reflexivity.
        -- exists rb'. split; [|exact Hloc].
           rewrite Hrb', <- (fill_row_concat raster width y rb) by lia.
           apply length_fill_row.
Qed.

(** ** Symbolic execution of the conversion steps *)

Lemma png_check_IHDR_false w h :
  png_check_IHDR w h = false -> 0 < w <= PNG_USER_WIDTH_MAX /\ 0 < h <= PNG_USER_HEIGHT_MAX \/ w < 0 \/ h < 0.
Proof.
  unfold png_check_IHDR. intros H.
  repeat rewrite orb_false_iff in H. destruct H as [[[H1 H2] H3] H4].
  apply Z.eqb_neq in H1, H2. apply Z.ltb_ge in H3, H4. lia.
Qed.

(** Closes a case of a run that stops at a failing step. *)
Ltac step_fail Hrun :=
  simpl in Hrun |- *; try (injection Hrun as <- <-; simpl; eauto; fail).

(** ** The raster *)

Lemma u64_bounds z : 0 <= z -> 0 <= u64 z <= z.
Proof.
  intros Hz. unfold u64. split; [apply Z.mod_pos_bound; lia | apply Z.mod_le; lia].
Qed.

Lemma raster_words_nonneg width height : 0 <= u64 (width * height * 4) / 4.
Proof. apply Z.div_pos; [unfold u64; apply Z.mod_pos_bound |]; lia. Qed.

(** The buffer never holds more words than the image has pixels. *)
Lemma raster_words_le width height :
  0 <= width -> 0 <= height -> u64 (width * height * 4) / 4 <= width * height.
Proof.
  intros Hw Hh. pose proof (u64_bounds (width * height * 4)) as Hb.
  apply Z.div_le_upper_bound; nia.
Qed.

(** When the byte count fits in a [size_t], the behaviour is defined and
    the buffer holds exactly the image. *)
Lemma raster_fits_exact width height :
  0 <= width -> 0 <= height -> raster_fits width height = true ->
  npixels_overflow width height = false /\
  raster_bytes width height = width * height * 4 /\
  raster_short width height = false.
Proof.
  unfold raster_fits, npixels_overflow, raster_short, raster_bytes, TSIZE_T_MAX, u64.
  intros Hw Hh Hf. apply Z.ltb_lt in Hf.
  rewrite Z.mod_small by nia.
  split; [apply Z.ltb_ge; lia|]. split; [reflexivity|].
  apply Z.ltb_ge. rewrite Z.div_mul by lia. lia.
Qed.

Lemma raster_fits_defined env width height :
  0 <= width -> 0 <= height -> raster_fits width height = true ->
  raster_undefined env width height = false.
Proof.
  intros Hw Hh Hf. destruct (raster_fits_exact width height Hw Hh Hf) as (Ho & _ & Hs).
  unfold raster_undefined. rewrite Ho, Hs, andb_false_r. reflexivity.
Qed.

(** The steps up to and including the decode, shared by the symbolic
    executions below: an overflowing or short raster stops the run, and
    a raster that holds the image is decoded in place. *)
Ltac raster_steps env w h Hrun tac :=
  unfold raster_bytes in *;
  destruct (TSIZE_T_MAX <? _) eqn:Eov; [tac Hrun|];
  destruct (u64 _ =? 0) eqn:E0; [tac Hrun|];
  destruct (tiffmalloc_ok env); [|tac Hrun];
  simpl in Hrun;
  rewrite length_fmap, length_seqZ, Z2Nat.id in Hrun by apply raster_words_nonneg;
  destruct (u64 _ / 4 <? _) eqn:Es; [tac Hrun|];
  rewrite drop_ge in Hrun
    by (rewrite length_fmap, length_seqZ;
        pose proof (raster_words_le (Z.of_N w) (Z.of_N h)); lia).

Lemma transcode_steps_run env t fn (w h : N) o s' :
  transcode_steps env t fn (Z.of_N w) (Z.of_N h) (mkSt null_locals [] []) = (o, s') ->
  trace s' = emitted_trace env t fn (Z.of_N w) (Z.of_N h) /\
  (if raster_undefined env (Z.of_N w) (Z.of_N h) then o = Undefined
   else
   live s' = resources_of (locals s') /\
   (l_info_ptr (locals s') = true -> l_png_ptr (locals s') = true) /\
   (if conversion_ok env t (Z.of_N w) (Z.of_N h)
    then o = Ok () /\ resources_of (locals s') = [RRow; RPngInfo; RPngStruct; RFile; RRaster]
    else exists e, o = Thrown e)).
Proof.
  intros Hrun.
  unfold transcode_steps, alloc_raster, TIFFmalloc, TIFFReadRGBAImageOriented, fopen,
    png_create_write_struct, png_create_info_struct, png_set_IHDR,
    png_write_info, malloc_row, png_write_end in Hrun.
  unfold_monad. unfold_monad.
  unfold emitted_trace, conversion_ok, raster_undefined, raster_alloc_ok, raster_short,
    npixels_overflow.
  simpl in Hrun.
  raster_steps env w h Hrun step_fail.
  destruct (read_rgba_image t ORIENTATION_TOPLEFT) as [f|];
    [rewrite app_nil_r in Hrun|]; step_fail Hrun.
  destruct (fopen_ok env); step_fail Hrun.
  destruct (create_write_struct_ok env); step_fail Hrun.
  destruct (create_info_struct_ok env); step_fail Hrun.
  destruct (png_error env CSetIHDR || png_check_IHDR (Z.of_N w) (Z.of_N h))
    eqn:Eihdr; step_fail Hrun.
  destruct (png_error env CWriteInfo); step_fail Hrun.
  destruct (malloc_ok env); step_fail Hrun.
  apply orb_false_iff in Eihdr as [_ Hck].
  apply png_check_IHDR_false in Hck.
  destruct (write_rows _ _ _ _) as [o1 s1] eqn:Ew.
  apply write_rows_run with (raster := rgba_raster f (Z.of_N w) (Z.of_N h))
    (rb := row_garbage env <$> seqZ 0 (Z.of_N w * 4)) in Ew;
    [| unfold PNG_USER_WIDTH_MAX in *; lia.. | reflexivity | reflexivity
     | rewrite length_fmap, length_seqZ; reflexivity].
  cbn zeta in Ew. destruct Ew as (Ho & Hlv & Htr & rb' & _ & Hloc).
  simpl in Hlv, Htr.
  destruct (rows_until_error _ _) as [ys e]. simpl in Ho, Htr |- *.
  destruct e; subst o1.
  - injection Hrun as <- <-. rewrite Hloc, Hlv, Htr, app_nil_r. simpl. eauto.
  - destruct (png_error env CWriteEnd); injection Hrun as <- <-; simpl;
      rewrite Hloc, Hlv, Htr; simpl; repeat split; eauto.
Qed.

Lemma unified_cleanup_run s o s' :
  live s = resources_of (locals s) ->
  (l_info_ptr (locals s) = true -> l_png_ptr (locals s) = true) ->
  unified_cleanup s = (o, s') ->
  o = Ok () /\ live s' = [] /\ trace s' = trace s.
Proof.
  destruct s as [[lr lf lp li lw] lv tr]; simpl. intros -> Hip Hrun.
  unfold unified_cleanup, png_destroy_write_struct in Hrun. unfold_monad.
  unfold_monad.
  destruct lr, lf, lp, li, lw; simpl in Hrun;
    try (specialize (Hip eq_refl); discriminate);
    injection Hrun as <- <-; auto.
Qed.

Lemma Resources_dtor_unified : Resources_dtor = unified_cleanup.
Proof. reflexivity. Qed.

(** The run of [save_tiff_as_png] on a handle whose dimensions are
    readable. *)
Lemma save_run env t fn w h o s' :
  tag_imagewidth t = Some w -> tag_imagelength t = Some h ->
  save_tiff_as_png env (Some t) (Some fn) init_st = (o, s') ->
  trace s' = emitted_trace env t fn (Z.of_N w) (Z.of_N h) /\
  (if raster_undefined env (Z.of_N w) (Z.of_N h) then o = Undefined
   else o = Ok (conversion_ok env t (Z.of_N w) (Z.of_N h)) /\ live s' = []).
Proof.
  intros Hw Hh Hrun. unfold save_tiff_as_png in Hrun. rewrite Hw, Hh in Hrun.
  unfold try_catch in Hrun. unfold_monad. simpl in Hrun.
  destruct (transcode_steps _ _ _ _ _ _) as [o1 s1] eqn:E.
  apply transcode_steps_run in E as (Htr & Hd).
  destruct (raster_undefined _ _ _).
  { subst o1. injection Hrun as <- <-. auto. }
  destruct Hd as (Hlv & Hip & Hok).
  destruct (conversion_ok _ _ _ _).
  - destruct Hok as [-> Hres]. rewrite Hres in Hlv.
    injection Hrun as <- <-. simpl. rewrite Hlv. auto.
  - destruct Hok as [e ->].
    destruct (unified_cleanup s1) as [o2 s2] eqn:E2.
    apply unified_cleanup_run in E2 as (-> & Hlv2 & Htr2); [|exact Hlv|exact Hip].
    injection Hrun as <- <-. rewrite Htr2. auto.
Qed.

(** The run of [save_tiff_as_png_raii], src/unnamed/part_000. *)
Lemma save_raii_run env t fn w h o s' :
  tag_imagewidth t = Some w -> tag_imagelength t = Some h ->
  save_tiff_as_png_raii env (Some t) (Some fn) init_st = (o, s') ->
  trace s' = emitted_trace env t fn (Z.of_N w) (Z.of_N h) /\
  (if raster_undefined env (Z.of_N w) (Z.of_N h) then o = Undefined
   else (if conversion_ok env t (Z.of_N w) (Z.of_N h) then o = Ok ()
         else exists e, o = Thrown e) /\ live s' = []).
Proof.
  intros Hw Hh Hrun. unfold save_tiff_as_png_raii in Hrun. rewrite Hw, Hh in Hrun.
  unfold with_dtor in Hrun. unfold_monad. simpl in Hrun.
  destruct (transcode_steps _ _ _ _ _ _) as [o1 s1] eqn:E.
  apply transcode_steps_run in E as (Htr & Hd).
  destruct (raster_undefined _ _ _).
  { subst o1. injection Hrun as <- <-. auto. }
  destruct Hd as (Hlv & Hip & Hok).
  rewrite Resources_dtor_unified in Hrun.
  destruct (unified_cleanup s1) as [o2 s2] eqn:E2.
  apply unified_cleanup_run in E2 as (_ & Hlv2 & Htr2); [|exact Hlv|exact Hip].
  destruct (conversion_ok _ _ _ _);
    [destruct Hok as [-> _] | destruct Hok as [e ->]];
    simpl in Hrun; injection Hrun as <- <-; rewrite Htr2; eauto.
Qed.

(** On an image whose raster fits, the result of [save_tiff_as_png] is
    defined: [true] exactly when every step succeeds. *)
Lemma save_fits_result env t fn :
  image_fits t = true ->
  fst (save_tiff_as_png env (Some t) (Some fn) init_st) =
    Ok (all_steps_ok env (Some t) (Some fn)).
Proof.
  intros Hfit. unfold image_fits in Hfit.
  destruct (tag_imagewidth t) as [w|] eqn:Hw;
    [|unfold save_tiff_as_png, all_steps_ok; rewrite Hw; reflexivity].
  destruct (tag_imagelength t) as [h|] eqn:Hh;
    [|unfold save_tiff_as_png, all_steps_ok; rewrite Hw, Hh; reflexivity].
  destruct (save_tiff_as_png env (Some t) (Some fn) init_st) as [o s'] eqn:E.
  apply save_run with (w := w) (h := h) in E as (_ & Hd); [|assumption..].
  rewrite raster_fits_defined in Hd by (lia || exact Hfit).
  destruct Hd as [-> _]. unfold all_steps_ok. rewrite Hw, Hh. reflexivity.
Qed.

(** ** C10 *)

(** C10: with a null handle, a null file name, or a width or height that
    cannot be read, [save_tiff_as_png] returns [false] and the revision of
    part_000 throws, both without touching the state: no buffer is
    allocated, no file is opened, no resource is held. *)
Theorem save_early_failure_no_effect env tif png_filename s :
  (tif = None \/ png_filename = None \/
   exists t, tif = Some t /\ (tag_imagewidth t = None \/ tag_imagelength t = None)) ->
  save_tiff_as_png env tif png_filename s = (Ok false, s) /\
  exists e, save_tiff_as_png_raii env tif png_filename s = (Thrown e, s).
Proof.
  intros [-> | [-> | (t & -> & [Hw | Hh])]];
    unfold save_tiff_as_png, save_tiff_as_png_raii; unfold_monad;
    try (destruct tif); try (destruct png_filename);
    try rewrite Hw; try rewrite Hh;
    try (destruct (tag_imagewidth t)); eauto.
Qed.

Lemma save_early_failure_no_effect_witness :
  (None = @None TIFF \/ Some (str "a.png") = None \/
   exists t, None = Some t /\ (tag_imagewidth t = None \/ tag_imagelength t = None)) /\
  save_tiff_as_png env_ok None (Some (str "a.png")) init_st = (Ok false, init_st).
Proof.
  split; [left; reflexivity|].
  apply (save_early_failure_no_effect env_ok None (Some (str "a.png")) init_st).
  left. reflexivity.
Defined.

(** ** C4 *)





(** ** C2 *)

(** Splits [ev ∈ tr] over the structure of [tr]. *)
Ltac in_trace_cases Hin :=
  repeat match type of Hin with
  | _ ∈ [] => apply elem_of_nil in Hin; contradiction
  | _ ∈ _ :: _ => apply elem_of_cons in Hin as [Hin|Hin]
  | _ ∈ _ ++ _ => apply elem_of_app in Hin as [Hin|Hin]
  | _ ∈ _ <$> _ => apply list_elem_of_fmap in Hin as (? & Hin & ?)
  | context [if ?b then _ else _] => destruct b
  | context [match ?x with _ => _ end] => destruct x
  | _ = _ => first [discriminate Hin | injection Hin as; subst]
  end.

Lemma emitted_trace_IHDR env t fn width height wd ht bd ct il cm ft :
  EvIHDR wd ht bd ct il cm ft ∈ emitted_trace env t fn width height ->
  wd = width /\ ht = height /\ bd = 8 /\ ct = PNG_COLOR_TYPE_RGBA /\
  il = PNG_INTERLACE_NONE /\ cm = PNG_COMPRESSION_TYPE_DEFAULT /\
  ft = PNG_FILTER_TYPE_DEFAULT.
Proof.
  unfold emitted_trace. intros Hin. in_trace_cases Hin; auto 10.
Qed.

(** C2: whatever the bit depth, sample count and color model of the
    image, the only header [save_tiff_as_png] hands to libpng (in either
    revision) is 8-bit RGBA, non-interlaced, with the default compression
    and filter; these tags are never read: an image differing only in them
    gives the same run. *)
Theorem whole_raster_header_rgba8 env t fn w h :
  tag_imagewidth t = Some w -> tag_imagelength t = Some h ->
  (forall wd ht bd ct il cm ft,
     EvIHDR wd ht bd ct il cm ft ∈ trace (snd (save_tiff_as_png env (Some t) (Some fn) init_st)) \/
     EvIHDR wd ht bd ct il cm ft ∈ trace (snd (save_tiff_as_png_raii env (Some t) (Some fn) init_st)) ->
     wd = Z.of_N w /\ ht = Z.of_N h /\ bd = 8 /\ ct = PNG_COLOR_TYPE_RGBA /\
     il = PNG_INTERLACE_NONE /\ cm = PNG_COMPRESSION_TYPE_DEFAULT /\
     ft = PNG_FILTER_TYPE_DEFAULT) /\
  (forall bits spp photometric,
     let t' := mkTIFF (Some w) (Some h) bits spp photometric (read_rgba_image t) in
     save_tiff_as_png env (Some t') (Some fn) init_st =
       save_tiff_as_png env (Some t) (Some fn) init_st /\
     save_tiff_as_png_raii env (Some t') (Some fn) init_st =
       save_tiff_as_png_raii env (Some t) (Some fn) init_st).
Proof.
  intros Hw Hh. split.
  - intros wd ht bd ct il cm ft Hin.
    destruct (save_tiff_as_png env (Some t) (Some fn) init_st) as [o s'] eqn:E.
    destruct (save_tiff_as_png_raii env (Some t) (Some fn) init_st) as [o2 s2] eqn:E2.
    apply save_run with (w := w) (h := h) in E as (Htr & _); [|assumption..].
    apply save_raii_run with (w := w) (h := h) in E2 as (Htr2 & _); [|assumption..].
    simpl in Hin. rewrite Htr, Htr2 in Hin.
    destruct Hin as [Hin|Hin]; apply emitted_trace_IHDR in Hin; exact Hin.
  - intros bits spp photometric. cbn zeta.
    unfold save_tiff_as_png, save_tiff_as_png_raii. rewrite Hw, Hh. simpl.
    split; reflexivity.
Qed.

Lemma whole_raster_header_rgba8_witness :
  tag_imagewidth (image 2 2 16 1 1 (fun x y => x + y)) = Some 2%N /\
  tag_imagelength (image 2 2 16 1 1 (fun x y => x + y)) = Some 2%N /\
  EvIHDR 2 2 8 6 0 0 0 ∈
    trace (snd (save_tiff_as_png env_ok (Some (image 2 2 16 1 1 (fun x y => x + y)))
                  (Some (str "a.png")) init_st)).
Proof.
  split; [reflexivity|]. split; [reflexivity|].
  destruct (whole_raster_header_rgba8 env_ok (image 2 2 16 1 1 (fun x y => x + y))
              (str "a.png") 2 2) as [_ _]; [reflexivity | reflexivity |].
  vm_compute. apply elem_of_cons. right. apply elem_of_cons. right.
  apply elem_of_cons. left. reflexivity.
Defined.

(** ** C3 *)

Lemma rows_until_error_seqZ err m (n : nat) :
  let '(ys, e) := rows_until_error err (seqZ m (Z.of_nat n)) in
  exists k, 0 <= k <= Z.of_nat n /\ ys = seqZ m k /\ (e = false -> k = Z.of_nat n).
Proof.
  revert m. induction n as [|n IH]; intros m.
  - simpl. exists 0. split; [lia|]. split; [reflexivity | intros; reflexivity].
  - rewrite seqZ_cons by lia. cbn [rows_until_error].
    replace (Z.pred (Z.of_nat (S n))) with (Z.of_nat n) by lia.
    destruct (err m).
    + exists 1. split; [lia|].
      split; [rewrite seqZ_cons by lia; reflexivity | discriminate].
    + specialize (IH (Z.succ m)).
      destruct (rows_until_error err (seqZ (Z.succ m) (Z.of_nat n))) as [ys e].
      destruct IH as (k & Hk & -> & He).
      exists (Z.succ k). split; [lia|]. split.
      * rewrite (seqZ_cons m (Z.succ k)) by lia. rewrite Z.pred_succ. reflexivity.
      * intros. rewrite He by assumption. lia.
Qed.

Lemma row_indices_app l1 l2 :
  row_indices (l1 ++ l2) = row_indices l1 ++ row_indices l2.
Proof.
  induction l1 as [|[] l1 IH]; simpl; rewrite ?IH; reflexivity.
Qed.

Lemma count_end_app l1 l2 : count_end (l1 ++ l2) = (count_end l1 + count_end l2)%nat.
Proof.
  induction l1 as [|[] l1 IH]; simpl; rewrite ?IH; reflexivity.
Qed.

Lemma row_indices_rows (g : Z -> list Z) ys :
  row_indices ((fun y => EvWriteRow y (g y)) <$> ys) = ys.
Proof. induction ys as [|y ys IH]; simpl; [reflexivity | f_equal; exact IH]. Qed.

Lemma count_end_rows (g : Z -> list Z) ys :
  count_end ((fun y => EvWriteRow y (g y)) <$> ys) = 0%nat.
Proof. induction ys as [|y ys IH]; simpl; [reflexivity | exact IH]. Qed.

(** Closes a case of a conversion that writes no row. *)
Ltac no_rows :=
  simpl; split; [exists 0; split; [lia | reflexivity]|];
  split; [lia|]; split; intros; congruence.

Lemma emitted_trace_rows env t fn width height :
  0 <= height ->
  let tr := emitted_trace env t fn width height in
  (exists k, 0 <= k <= height /\ row_indices tr = seqZ 0 k) /\
  (count_end tr <= 1)%nat /\
  (count_end tr = 1%nat ->
   row_indices tr = seqZ 0 height /\ last tr = Some EvWriteEnd) /\
  (raster_undefined env width height = false ->
   conversion_ok env t width height = true -> count_end tr = 1%nat).
Proof.
  intros Hh. cbn zeta. unfold emitted_trace, conversion_ok, raster_undefined.
  destruct (npixels_overflow width height); [no_rows|].
  destruct (raster_alloc_ok env width height); [|no_rows].
  destruct (raster_short width height); [no_rows|].
  destruct (read_rgba_image t ORIENTATION_TOPLEFT) as [f|]; [|no_rows].
  destruct (fopen_ok env); [|no_rows].
  destruct (create_write_struct_ok env); [|no_rows].
  destruct (create_info_struct_ok env); [|no_rows].
  destruct (png_error env CSetIHDR || png_check_IHDR width height); [no_rows|].
  destruct (png_error env CWriteInfo); [no_rows|].
  destruct (malloc_ok env); [|no_rows]. simpl.
  pose proof (rows_until_error_seqZ (fun y => png_error env (CWriteRow y)) 0
                (Z.to_nat height)) as Hr.
  rewrite Z2Nat.id in Hr by lia.
  destruct (rows_until_error _ _) as [ys e].
  destruct Hr as (k & Hk & -> & He).
  rewrite row_indices_app, row_indices_rows, count_end_app, count_end_rows.
  destruct e; simpl.
  - rewrite app_nil_r. split; [eauto|]. split; [lia|]. split; intros; congruence.
  - rewrite He by reflexivity. rewrite app_nil_r.
    split; [exists height; split; [lia | reflexivity]|].
    split; [lia|]. split; [|reflexivity].
    intros _. split; [reflexivity|].
    rewrite !app_comm_cons. apply last_snoc.
Qed.

(** C3: the rows handed to [png_write_row] are rows [0, 1, ..., k-1] for
    some [k <= height], in this order, each once; [png_write_end] is
    called at most once, and only when all [height] rows have been
    written, as the last call; a successful conversion writes all
    [height] rows and calls [png_write_end] exactly once. *)
Theorem rows_written_in_order env t fn w h o s' :
  tag_imagewidth t = Some w -> tag_imagelength t = Some h ->
  save_tiff_as_png env (Some t) (Some fn) init_st = (o, s') ->
  (exists k, 0 <= k <= Z.of_N h /\ row_indices (trace s') = seqZ 0 k) /\
  (count_end (trace s') <= 1)%nat /\
  (count_end (trace s') = 1%nat ->
   row_indices (trace s') = seqZ 0 (Z.of_N h) /\ last (trace s') = Some EvWriteEnd) /\
  (o = Ok true ->
   count_end (trace s') = 1%nat /\ row_indices (trace s') = seqZ 0 (Z.of_N h)).
Proof.
  intros Hw Hh Hrun.
  apply save_run with (w := w) (h := h) in Hrun as (-> & Hd); [|assumption..].
  destruct (emitted_trace_rows env t fn (Z.of_N w) (Z.of_N h))
    as (Hk & Hle & Hall & Hok); [lia|].
  split; [exact Hk|]. split; [exact Hle|]. split; [exact Hall|].
  intros Ht.
  destruct (raster_undefined env (Z.of_N w) (Z.of_N h)) eqn:Hu;
    [subst o; discriminate|].
  destruct Hd as [Ho _]. rewrite Ho in Ht. injection Ht as Ht.
  assert (Hc : count_end (emitted_trace env t fn (Z.of_N w) (Z.of_N h)) = 1%nat)
    by (apply Hok; auto).
  split; [exact Hc | apply Hall; exact Hc].
Qed.

Lemma rows_written_in_order_witness :
  row_indices (trace (snd (save_tiff_as_png env_ok
    (Some (image 2 3 8 3 2 (fun x y => x))) (Some (str "a.png")) init_st))) = seqZ 0 3.
Proof.
  pose proof (rows_written_in_order env_ok (image 2 3 8 3 2 (fun x y => x)) (str "a.png")
                2 3 _ _ eq_refl eq_refl (surjective_pairing _)) as (_ & _ & _ & Hok).
  apply Hok. vm_compute. reflexivity.
Defined.

(** ** C6 *)

Lemma length_rgba_raster f width height :
  length (rgba_raster f width height) = Z.to_nat (width * height).
Proof. unfold rgba_raster. rewrite length_fmap, length_seqZ. reflexivity. Qed.

(** Row [y] of the raster read pixel by pixel is the slice
    [raster[y*width .. y*width+width]]. *)
Lemma row_bytes_slice raster width y :
  0 <= width -> 0 <= y -> (Z.to_nat (y * width + width) <= length raster)%nat ->
  row_bytes raster width y =
    mjoin (pixel_bytes <$> take (Z.to_nat width) (drop (Z.to_nat (y * width)) raster)).
Proof.
  intros Hw Hy Hlen. unfold row_bytes. f_equal.
  change (fun x => pixel_bytes (raster_at raster (y * width + x)))
    with (pixel_bytes ∘ (fun x => raster_at raster (y * width + x))).
  rewrite list_fmap_compose. f_equal.
  apply list_eq_same_length with (Z.to_nat width).
  - rewrite length_take, length_drop. lia.
  - rewrite length_fmap, length_seqZ. reflexivity.
  - intros i a b Hi Ha Hb.
    rewrite list_lookup_fmap, lookup_seqZ_lt in Ha by lia.
    injection Ha as <-.
    rewrite lookup_take_lt, lookup_drop in Hb by lia.
    unfold raster_at. rewrite list_lookup_lookup_total_lt in Hb by lia.
    injection Hb as <-. f_equal. lia.
Qed.

Lemma rows_until_error_sub err ys y :
  y ∈ (rows_until_error err ys).1 -> y ∈ ys.
Proof.
  induction ys as [|y' ys IH]; simpl; [intros Hy; apply elem_of_nil in Hy; contradiction|].
  destruct (err y').
  - simpl. intros Hy. apply elem_of_cons in Hy as [->|Hy];
      [apply elem_of_cons; left; reflexivity | apply elem_of_nil in Hy; contradiction].
  - destruct (rows_until_error err ys) as [r e]. simpl in *.
    intros Hy. apply elem_of_cons in Hy as [->|Hy]; apply elem_of_cons; auto.
Qed.

(** The row writes of a conversion: each comes after the decode call that
    opens the trace, and writes row [y] of the decoded raster. *)
Lemma emitted_trace_row env t fn width height y bytes :
  EvWriteRow y bytes ∈ emitted_trace env t fn width height ->
  exists f, read_rgba_image t ORIENTATION_TOPLEFT = Some f /\
    0 <= y < height /\ bytes = row_bytes (rgba_raster f width height) width y /\
    exists rest, emitted_trace env t fn width height =
                   EvDecode width height ORIENTATION_TOPLEFT :: rest.
Proof.
  unfold emitted_trace. intros Hin.
  destruct (npixels_overflow width height || negb (raster_alloc_ok env width height));
    simpl in *; [in_trace_cases Hin|].
  destruct (raster_short width height); [in_trace_cases Hin|].
  destruct (read_rgba_image t ORIENTATION_TOPLEFT) as [f|]; [|in_trace_cases Hin].
  exists f. split; [reflexivity|].
  enough (0 <= y < height /\ bytes = row_bytes (rgba_raster f width height) width y)
    by (split; [tauto|]; split; [tauto|]; eexists; reflexivity).
  destruct (fopen_ok env && create_write_struct_ok env && create_info_struct_ok env);
    simpl in Hin; [|in_trace_cases Hin].
  destruct (png_error env CSetIHDR || png_check_IHDR width height);
    simpl in Hin; [in_trace_cases Hin|].
  destruct (png_error env CWriteInfo || negb (malloc_ok env));
    simpl in Hin; [in_trace_cases Hin|].
  pose proof (rows_until_error_sub (fun y => png_error env (CWriteRow y)) (seqZ 0 height)) as Hs.
  destruct (rows_until_error _ _) as [ys e]. simpl in Hs.
  repeat (apply elem_of_cons in Hin as [Hin|Hin]; [discriminate|]).
  apply elem_of_app in Hin as [Hin|Hin].
  - apply list_elem_of_fmap in Hin as (y' & Heq & Hy'). injection Heq as -> ->.
    apply Hs, elem_of_seqZ in Hy'. split; [lia | reflexivity].
  - destruct e; in_trace_cases Hin.
Qed.

Lemma count_decode_app l1 l2 :
  count_decode (l1 ++ l2) = (count_decode l1 + count_decode l2)%nat.
Proof.
  induction l1 as [|[] l1 IH]; simpl; rewrite ?IH; reflexivity.
Qed.

Lemma count_decode_rows (g : Z -> list Z) ys :
  count_decode ((fun y => EvWriteRow y (g y)) <$> ys) = 0%nat.
Proof. induction ys as [|y ys IH]; simpl; [reflexivity | exact IH]. Qed.

(** A conversion decodes once, with the image's dimensions and the
    top-left orientation, as soon as the raster is allocated. *)
Lemma emitted_trace_decode env t fn width height :
  count_decode (emitted_trace env t fn width height) =
    (if npixels_overflow width height || negb (raster_alloc_ok env width height)
     then 0 else 1)%nat /\
  (forall a b c, EvDecode a b c ∈ emitted_trace env t fn width height ->
     a = width /\ b = height /\ c = ORIENTATION_TOPLEFT).
Proof.
  split.
  - unfold emitted_trace.
    destruct (npixels_overflow width height || negb (raster_alloc_ok env width height));
      [reflexivity|].
    destruct (raster_short width height); [reflexivity|].
    destruct (read_rgba_image t ORIENTATION_TOPLEFT) as [f|]; [|reflexivity].
    simpl. destruct (_ && _ && _); [|reflexivity].
    destruct (_ || _); [reflexivity|].
    destruct (_ || _); [reflexivity|].
    destruct (rows_until_error _ _) as [ys e].
    simpl. rewrite count_decode_app, count_decode_rows. destruct e; reflexivity.
  - intros a b c Hin. unfold emitted_trace in Hin. in_trace_cases Hin; auto.
Qed.

(** C6: a call of [save_tiff_as_png] makes at most one decode call, for
    the whole image ([width] by [height], top-left origin); a call that
    writes any row made exactly one, as its first external call, and every
    row [y] it writes is the slice [raster[y*width .. y*width+width]] of
    the [width*height] raster that call filled, with no further decode. *)
Theorem single_decode_row_slices env t fn w h :
  tag_imagewidth t = Some w -> tag_imagelength t = Some h ->
  let tr := trace (snd (save_tiff_as_png env (Some t) (Some fn) init_st)) in
  (count_decode tr <= 1)%nat /\
  (forall a b c, EvDecode a b c ∈ tr ->
     a = Z.of_N w /\ b = Z.of_N h /\ c = ORIENTATION_TOPLEFT) /\
  (forall y bytes, EvWriteRow y bytes ∈ tr ->
     count_decode tr = 1%nat /\
     (exists rest, tr = EvDecode (Z.of_N w) (Z.of_N h) ORIENTATION_TOPLEFT :: rest) /\
     exists f, read_rgba_image t ORIENTATION_TOPLEFT = Some f /\
       length (rgba_raster f (Z.of_N w) (Z.of_N h)) = Z.to_nat (Z.of_N w * Z.of_N h) /\
       0 <= y < Z.of_N h /\
       bytes = mjoin (pixel_bytes <$> take (Z.to_nat (Z.of_N w))
                        (drop (Z.to_nat (y * Z.of_N w)) (rgba_raster f (Z.of_N w) (Z.of_N h))))).
Proof.
  intros Hw Hh. cbn zeta.
  destruct (save_tiff_as_png env (Some t) (Some fn) init_st) as [o s'] eqn:E.
  apply save_run with (w := w) (h := h) in E as (Htr & _); [|assumption..].
  simpl. rewrite Htr.
  destruct (emitted_trace_decode env t fn (Z.of_N w) (Z.of_N h)) as [Hc Hd].
  split; [rewrite Hc; destruct (_ || negb _); lia|].
  split; [exact Hd|].
  intros y bytes Hin.
  apply emitted_trace_row in Hin as (f & Hf & Hy & -> & rest & Hrest).
  rewrite Hrest in Hc |- *. simpl in Hc.
  split; [destruct (_ || negb _); simpl in Hc; simpl; lia|].
  split; [eauto|].
  exists f. split; [exact Hf|]. split; [apply length_rgba_raster|].
  split; [exact Hy|].
  apply row_bytes_slice; [lia | lia |].
  rewrite length_rgba_raster. apply Z2Nat.inj_le; nia.
Qed.

Lemma single_decode_row_slices_witness :
  count_decode (trace (snd (save_tiff_as_png env_ok
    (Some (image 2 3 8 3 2 (fun x y => x + 16 * y))) (Some (str "a.png")) init_st))) = 1%nat.
Proof.
  destruct (single_decode_row_slices env_ok (image 2 3 8 3 2 (fun x y => x + 16 * y))
              (str "a.png") 2 3 eq_refl eq_refl) as (_ & _ & Hrow).
  apply (Hrow 1 [0; 0; 16; 0; 0; 0; 17; 0]).
  vm_compute. do 5 (apply elem_of_cons; right). apply elem_of_cons. left. reflexivity.
Defined.

(** ** C5 *)

(** C5, counterexample: a 1x1 16-bit gray image (photometric
    min-is-black) whose sample is [0x1234].  The RGBA decoder delivers the
    packed pixel [0xFF121212] for it (the high byte of the sample as R, G
    and B, opaque alpha).  The scanline handed to [png_write_row] is the
    four bytes [0x12, 0x12, 0x12, 0xFF] of an 8-bit RGBA pixel, after an
    8-bit header; the two bytes [0x12, 0x34] are never written. *)
Lemma gray16_scanline_is_rgba8 :
  let tr := trace (snd (save_tiff_as_png env_ok
              (Some (image 1 1 16 1 1 (fun _ _ => 0xFF121212))) (Some (str "g.png")) init_st)) in
  tr = [EvDecode 1 1 ORIENTATION_TOPLEFT; EvFopen (str "g.png");
        EvIHDR 1 1 8 PNG_COLOR_TYPE_RGBA PNG_INTERLACE_NONE
          PNG_COMPRESSION_TYPE_DEFAULT PNG_FILTER_TYPE_DEFAULT;
        EvWriteInfo; EvWriteRow 0 [0x12; 0x12; 0x12; 0xFF]; EvWriteEnd] /\
  Forall (fun ev => ev <> EvWriteRow 0 [0x12; 0x34]) tr.
Proof.
  cbn zeta. vm_compute. split; [reflexivity|].
  repeat constructor; discriminate.
Qed.

(** Closes a branch of the trace of a 1x1 conversion. *)
Ltac one_pixel_end :=
  simpl; split; [first [left; reflexivity | right; reflexivity]|];
  split; [intros ? ? ? ? ? ? ? Hin; in_trace_cases Hin; repeat split; reflexivity|];
  intros Hok; first [discriminate Hok | split; [reflexivity |
    repeat (first [apply elem_of_cons; left; reflexivity | apply elem_of_cons; right])]].

(** C5, amended: for a 1x1 image of any bit depth, sample count or color
    model, at most one scanline is handed to [png_write_row]: row 0, the
    four bytes R, G, B, A of the decoder's packed pixel, after a header
    that declares an 8-bit RGBA image; a successful conversion writes
    exactly this scanline under exactly this header.  No 16-bit sample is
    written and no byte swap takes place. *)
Theorem one_pixel_scanline_rgba8 env t fn f :
  tag_imagewidth t = Some 1%N -> tag_imagelength t = Some 1%N ->
  read_rgba_image t ORIENTATION_TOPLEFT = Some f ->
  let r := save_tiff_as_png env (Some t) (Some fn) init_st in
  (row_writes (trace (snd r)) = [] \/
   row_writes (trace (snd r)) = [EvWriteRow 0 (pixel_bytes (f 0 0))]) /\
  (forall a b c d e g i, EvIHDR a b c d e g i ∈ trace (snd r) ->
     a = 1 /\ b = 1 /\ c = 8 /\ d = PNG_COLOR_TYPE_RGBA /\ e = PNG_INTERLACE_NONE /\
     g = PNG_COMPRESSION_TYPE_DEFAULT /\ i = PNG_FILTER_TYPE_DEFAULT) /\
  (fst r = Ok true ->
   row_writes (trace (snd r)) = [EvWriteRow 0 (pixel_bytes (f 0 0))] /\
   EvIHDR 1 1 8 PNG_COLOR_TYPE_RGBA PNG_INTERLACE_NONE
     PNG_COMPRESSION_TYPE_DEFAULT PNG_FILTER_TYPE_DEFAULT ∈ trace (snd r)).
Proof.
  intros Hw Hh Hf. cbn zeta.
  destruct (save_tiff_as_png env (Some t) (Some fn) init_st) as [o s'] eqn:E.
  apply save_run with (w := 1%N) (h := 1%N) in E as (Htr & Hd); [|assumption..].
  change (Z.of_N 1) with 1 in *. simpl fst; simpl snd. rewrite Htr.
  rewrite (raster_fits_defined env 1 1) in Hd by (lia || reflexivity).
  destruct Hd as [-> _].
  unfold emitted_trace, conversion_ok. rewrite Hf.
  change (npixels_overflow 1 1) with false. change (raster_short 1 1) with false.
  change (seqZ 0 1) with [0].
  destruct (raster_alloc_ok env 1 1); [|one_pixel_end].
  destruct (fopen_ok env); [|one_pixel_end].
  destruct (create_write_struct_ok env); [|one_pixel_end].
  destruct (create_info_struct_ok env); [|one_pixel_end].
  destruct (png_error env CSetIHDR || png_check_IHDR 1 1); [one_pixel_end|].
  destruct (png_error env CWriteInfo); [one_pixel_end|].
  destruct (malloc_ok env); [|one_pixel_end].
  simpl. destruct (png_error env (CWriteRow 0)); [one_pixel_end|].
  destruct (png_error env CWriteEnd); one_pixel_end.
Qed.

Lemma one_pixel_scanline_rgba8_witness :
  row_writes (trace (snd (save_tiff_as_png env_ok
    (Some (image 1 1 16 1 1 (fun _ _ => 0xFF121212))) (Some (str "g.png")) init_st))) =
  [EvWriteRow 0 [0x12; 0x12; 0x12; 0xFF]].
Proof.
  destruct (one_pixel_scanline_rgba8 env_ok (image 1 1 16 1 1 (fun _ _ => 0xFF121212))
              (str "g.png") (fun _ _ => 0xFF121212) eq_refl eq_refl eq_refl)
    as (_ & _ & Hok).
  apply Hok. vm_compute. reflexivity.
Defined.

(** ** C7 *)

Lemma find_last_of_absent c s : c ∉ s -> find_last_of c s = None.
Proof.
  induction s as [|a s IH]; simpl; intros Hn; [reflexivity|].
  rewrite IH by (intros Hin; apply Hn, elem_of_cons; right; exact Hin).
  destruct (decide (a = c)) as [->|]; [|reflexivity].
  exfalso. apply Hn, elem_of_cons. left. reflexivity.
Qed.

Lemma find_last_of_last c pre ext :
  c ∉ ext -> find_last_of c (pre ++ c :: ext) = Some (length pre).
Proof.
  intros Hn. induction pre as [|a pre IH]; simpl.
  - rewrite find_last_of_absent by exact Hn.
    destruct (decide (c = c)); [reflexivity | contradiction].
  - rewrite IH. reflexivity.
Qed.

(** C7: the output name is the input with its last ['.'] and everything
    after it replaced by [".png"]; an input without ['.'] gets [".png"]
    appended.  The last ['.'] is searched in the whole path, directories
    included. *)
Theorem output_file_replaces_extension (s : list ascii) :
  (forall pre ext, s = pre ++ "."%char :: ext -> "."%char ∉ ext ->
     output_file_of s = pre ++ str ".png") /\
  ("."%char ∉ s -> output_file_of s = s ++ str ".png").
Proof.
  split.
  - intros pre ext -> Hn. unfold output_file_of.
    rewrite find_last_of_last by exact Hn. apply (f_equal (fun l => l ++ _)).
    apply take_app_length.
  - intros Hn. unfold output_file_of. rewrite find_last_of_absent by exact Hn.
    reflexivity.
Qed.

Lemma output_file_replaces_extension_witness :
  output_file_of (str "scan.v2.tif") = str "scan.v2.png" /\
  output_file_of (str "scan") = str "scan.png".
Proof.
  split.
  - apply (proj1 (output_file_replaces_extension (str "scan.v2.tif")) (str "scan.v2") (str "tif"));
      [reflexivity|].
    intros Hin. repeat (apply elem_of_cons in Hin as [Hin|Hin]; [discriminate|]).
    apply elem_of_nil in Hin. exact Hin.
  - apply (proj2 (output_file_replaces_extension (str "scan"))).
    intros Hin. repeat (apply elem_of_cons in Hin as [Hin|Hin]; [discriminate|]).
    apply elem_of_nil in Hin. exact Hin.
Defined.

(** ** C8 *)

(** C8, counterexample: with two arguments, a readable [valid.tif] and a
    missing [missing.tif], the process exits with 0 and prints one line:
    the second argument is never looked at. *)
Lemma main_ignores_second_argument :
  main world_valid_only (str "tiff-png") [str "valid.tif"; str "missing.tif"] =
    Some (0, [str "Saved PNG file: valid.png"]) /\
  TIFFOpen world_valid_only (str "missing.tif") = None.
Proof. vm_compute. split; reflexivity. Qed.

(** C8, amended: [main] converts its first argument only and ignores the
    others.  When the raster of that file, if it opens, fits in a
    [size_t], [main] returns: it exits with 0 exactly when the file opens
    and its conversion returns [true], and with 1 otherwise (no argument,
    an unreadable file, a failed conversion), printing exactly one line. *)
Theorem main_converts_first_argument w argv0 args :
  main w argv0 args = main w argv0 (take 1 args) /\
  ((forall tiff_file tif, head args = Some tiff_file -> TIFFOpen w tiff_file = Some tif ->
      image_fits tif = true) ->
   exists code lines, main w argv0 args = Some (code, lines) /\
     (code = 0 <->
      exists tiff_file rest tif, args = tiff_file :: rest /\ TIFFOpen w tiff_file = Some tif /\
        fst (save_tiff_as_png (conv_env w) (Some tif) (Some (output_file_of tiff_file))
               init_st) = Ok true) /\
     (code = 0 \/ code = 1) /\ length lines = 1%nat).
Proof.
  destruct args as [|tiff_file rest]; cbn -[save_tiff_as_png output_file_of].
  - split; [reflexivity|]. intros _. eexists _, _. split; [reflexivity|].
    split; [|auto]. split; [discriminate | intros (? & ? & ? & ? & _); discriminate].
  - split; [reflexivity|]. intros Hfit.
    destruct (TIFFOpen w tiff_file) as [tif|] eqn:Ho.
    + assert (Hs : fst (save_tiff_as_png (conv_env w) (Some tif)
                          (Some (output_file_of tiff_file)) init_st) =
                     Ok (all_steps_ok (conv_env w) (Some tif) (Some (output_file_of tiff_file))))
        by (apply save_fits_result, (Hfit tiff_file); [reflexivity | exact Ho]).
      rewrite Hs.
      destruct (all_steps_ok (conv_env w) (Some tif) (Some (output_file_of tiff_file)));
        cbn -[save_tiff_as_png output_file_of].
      * eexists _, _. split; [reflexivity|]. split; [|auto].
        split; [intros _; exists tiff_file, rest, tif; auto | intros _; reflexivity].
      * eexists _, _. split; [reflexivity|]. split; [|auto]. split; [discriminate|].
        intros (f & r & tif' & Heq & Ho' & Hs'). injection Heq as <- <-.
        rewrite Ho in Ho'. injection Ho' as <-. congruence.
    + eexists _, _. split; [reflexivity|]. split; [|auto]. split; [discriminate|].
      intros (f & r & tif' & Heq & Ho' & _). injection Heq as <- <-. congruence.
Qed.

Lemma main_converts_first_argument_witness :
  exists code lines,
    main world_valid_only (str "tiff-png") [str "valid.tif"; str "missing.tif"] =
      Some (code, lines) /\ code = 0.
Proof.
  destruct (proj2 (main_converts_first_argument world_valid_only (str "tiff-png")
                     [str "valid.tif"; str "missing.tif"])) as (code & lines & Hm & Hc & _).
  - intros tiff_file tif Hhd Ho. injection Hhd as <-.
    vm_compute in Ho. injection Ho as <-. reflexivity.
  - exists code, lines. split; [exact Hm|]. apply Hc.
    exists (str "valid.tif"), [str "missing.tif"], (image 1 1 8 3 2 (fun _ _ => 0)).
    split; [reflexivity|]. split; [reflexivity|]. vm_compute. reflexivity.
Defined.

(** ** C9 *)

(** C9: the result and every external call of [save_tiff_as_png], among
    them the bytes of each row handed to [png_write_row], are determined by
    the inputs: they do not depend on the initial contents of the raster
    and row buffers, which the code overwrites before it reads them. *)
Theorem conversion_deterministic env rg wg tif png_filename :
  fst (save_tiff_as_png (with_garbage env rg wg) tif png_filename init_st) =
    fst (save_tiff_as_png env tif png_filename init_st) /\
  trace (snd (save_tiff_as_png (with_garbage env rg wg) tif png_filename init_st)) =
    trace (snd (save_tiff_as_png env tif png_filename init_st)).
Proof.
  destruct tif as [t|]; [|split; reflexivity].
  destruct png_filename as [fn|]; [|split; reflexivity].
  destruct (tag_imagewidth t) as [w|] eqn:Hw;
    [|unfold save_tiff_as_png; rewrite Hw; split; reflexivity].
  destruct (tag_imagelength t) as [h|] eqn:Hh;
    [|unfold save_tiff_as_png; rewrite Hw, Hh; split; reflexivity].
  destruct (save_tiff_as_png env (Some t) (Some fn) init_st) as [o s'] eqn:E.
  destruct (save_tiff_as_png (with_garbage env rg wg) (Some t) (Some fn) init_st)
    as [o2 s2] eqn:E2.
  apply save_run with (w := w) (h := h) in E as (Htr & Hd); [|assumption..].
  apply save_run with (w := w) (h := h) in E2 as (Htr2 & Hd2); [|assumption..].
  simpl. rewrite Htr, Htr2. split; [|reflexivity].
  change (raster_undefined (with_garbage env rg wg) (Z.of_N w) (Z.of_N h))
    with (raster_undefined env (Z.of_N w) (Z.of_N h)) in Hd2.
  change (conversion_ok (with_garbage env rg wg) t (Z.of_N w) (Z.of_N h))
    with (conversion_ok env t (Z.of_N w) (Z.of_N h)) in Hd2.
  destruct (raster_undefined env (Z.of_N w) (Z.of_N h)); [congruence|].
  destruct Hd as [-> _], Hd2 as [-> _]. reflexivity.
Qed.

(** * Further properties of the code *)

(** ** The output name *)

(** X1: [main] writes over its own input when the input's name ends in
    [".png"], and only then: the output name equals the input name
    exactly when the input ends in [".png"]. *)
Theorem output_file_same_as_input (s : list ascii) :
  output_file_of s = s <-> exists pre, s = pre ++ str ".png".
Proof.
  split.
  - unfold output_file_of. destruct (find_last_of "."%char s) as [p|].
    + intros Hs. exists (take p s). symmetry. exact Hs.
    + intros Hs. apply (f_equal length) in Hs. rewrite length_app in Hs.
      simpl in Hs. lia.
  - intros [pre ->]. unfold output_file_of.
    change (str ".png") with ("."%char :: str "png").
    rewrite find_last_of_last.
    + rewrite take_app_length. reflexivity.
    + intros Hin. repeat (apply elem_of_cons in Hin as [Hin|Hin]; [discriminate|]).
      apply elem_of_nil in Hin. exact Hin.
Qed.

Lemma output_file_same_as_input_witness :
  output_file_of (str "scan.png") = str "scan.png".
Proof.
  apply (proj2 (output_file_same_as_input (str "scan.png"))).
  exists (str "scan"). reflexivity.
Defined.

(** ** Images libpng refuses *)

(** X2: An image whose width or height is 0 or above libpng's limit of
    1000000, and whose raster fits in a [size_t], is never converted:
    [save_tiff_as_png] returns [false], holds no resource, writes no row
    and does not end the image; but when the image is not empty and its
    raster was allocated and decoded, it has called [fopen] on the output
    name first. *)
Theorem unsupported_dimensions_rejected env t fn w h :
  tag_imagewidth t = Some w -> tag_imagelength t = Some h ->
  (w = 0%N \/ h = 0%N \/ (1000000 < w)%N \/ (1000000 < h)%N) ->
  raster_fits (Z.of_N w) (Z.of_N h) = true ->
  let r := save_tiff_as_png env (Some t) (Some fn) init_st in
  fst r = Ok false /\ live (snd r) = [] /\
  row_indices (trace (snd r)) = [] /\ count_end (trace (snd r)) = 0%nat /\
  (0 < Z.of_N w * Z.of_N h -> tiffmalloc_ok env = true ->
   is_Some (read_rgba_image t ORIENTATION_TOPLEFT) -> EvFopen fn ∈ trace (snd r)).
Proof.
  intros Hw Hh Hdim Hfit. cbn zeta.
  assert (Hck : png_check_IHDR (Z.of_N w) (Z.of_N h) = true).
  { unfold png_check_IHDR, PNG_USER_WIDTH_MAX, PNG_USER_HEIGHT_MAX.
    destruct Hdim as [-> | [-> | [Hd | Hd]]];
      [reflexivity | rewrite orb_true_r; reflexivity | |].
    - assert ((1000000 <? Z.of_N w) = true) as -> by (apply Z.ltb_lt; lia).
      rewrite orb_true_r. reflexivity.
    - assert ((1000000 <? Z.of_N h) = true) as -> by (apply Z.ltb_lt; lia).
      apply orb_true_r. }
  destruct (raster_fits_exact (Z.of_N w) (Z.of_N h)) as (Hov & Hb & Hs);
    [lia | lia | exact Hfit |].
  destruct (save_tiff_as_png env (Some t) (Some fn) init_st) as [o s'] eqn:E.
  apply save_run with (w := w) (h := h) in E as (Htr & Hd); [|assumption..].
  rewrite raster_fits_defined in Hd by (lia || exact Hfit).
  destruct Hd as [-> Hlv].
  simpl. rewrite Hlv, Htr.
  unfold conversion_ok, emitted_trace, raster_alloc_ok.
  rewrite Hck, orb_true_r, Hov, Hs, Hb. simpl.
  rewrite !andb_false_r. simpl.
  split; [reflexivity|]. split; [reflexivity|].
  destruct (Z.of_N w * Z.of_N h * 4 =? 0) eqn:E0; simpl.
  { split; [reflexivity|]. split; [reflexivity|].
    intros Hpos. apply Z.eqb_eq in E0. lia. }
  destruct (tiffmalloc_ok env); simpl;
    [|split; [reflexivity|]; split; [reflexivity|]; intros _; discriminate].
  destruct (read_rgba_image t ORIENTATION_TOPLEFT) as [f|]; simpl;
    [|split; [reflexivity|]; split; [reflexivity|]; intros _ _ [? Hn]; discriminate].
  destruct (fopen_ok env && create_write_struct_ok env && create_info_struct_ok env);
    simpl; (split; [reflexivity|]; split; [reflexivity|]);
    intros _ _ _; apply elem_of_cons; right; apply elem_of_cons; left; reflexivity.
Qed.

Lemma unsupported_dimensions_rejected_witness :
  fst (save_tiff_as_png env_ok (Some (image 0 3 8 3 2 (fun x y => x))) (Some (str "a.png"))
         init_st) = Ok false.
Proof.
  apply (unsupported_dimensions_rejected env_ok (image 0 3 8 3 2 (fun x y => x))
           (str "a.png") 0 3); [reflexivity | reflexivity | left; reflexivity | reflexivity].
Defined.

(** ** The exception messages of src/unnamed/part_000 *)

Lemma transcode_steps_what env t fn (w h : N) :
  fst (transcode_steps env t fn (Z.of_N w) (Z.of_N h) (mkSt null_locals [] [])) =
  if raster_undefined env (Z.of_N w) (Z.of_N h) then Undefined else
  match first_failure env t (Z.of_N w) (Z.of_N h) with
  | Some m => Thrown m
  | None => Ok ()
  end.
Proof.
  destruct (transcode_steps env t fn (Z.of_N w) (Z.of_N h) (mkSt null_locals [] []))
    as [o s'] eqn:Hrun. simpl.
  unfold transcode_steps, alloc_raster, TIFFmalloc, TIFFReadRGBAImageOriented, fopen,
    png_create_write_struct, png_create_info_struct, png_set_IHDR,
    png_write_info, malloc_row, png_write_end in Hrun.
  unfold_monad. unfold_monad.
  unfold first_failure, write_ok, raster_undefined, raster_alloc_ok, raster_short,
    npixels_overflow.
  simpl in Hrun.
  raster_steps env w h Hrun step_fail.
  destruct (read_rgba_image t ORIENTATION_TOPLEFT) as [f|];
    [rewrite app_nil_r in Hrun|]; step_fail Hrun.
  destruct (fopen_ok env); step_fail Hrun.
  destruct (create_write_struct_ok env); step_fail Hrun.
  destruct (create_info_struct_ok env); step_fail Hrun.
  destruct (png_error env CSetIHDR || png_check_IHDR (Z.of_N w) (Z.of_N h))
    eqn:Eihdr; step_fail Hrun.
  destruct (png_error env CWriteInfo); step_fail Hrun.
  destruct (malloc_ok env); step_fail Hrun.
  apply orb_false_iff in Eihdr as [_ Hck].
  apply png_check_IHDR_false in Hck.
  destruct (write_rows _ _ _ _) as [o1 s1] eqn:Ew.
  apply write_rows_run with (raster := rgba_raster f (Z.of_N w) (Z.of_N h))
    (rb := row_garbage env <$> seqZ 0 (Z.of_N w * 4)) in Ew;
    [| unfold PNG_USER_WIDTH_MAX in *; lia.. | reflexivity | reflexivity
     | rewrite length_fmap, length_seqZ; reflexivity].
  cbn zeta in Ew. destruct Ew as (Ho & _).
  destruct (rows_until_error _ _) as [ys e]. simpl in Ho |- *.
  destruct e; subst o1.
  - injection Hrun as <- <-. reflexivity.
  - destruct (png_error env CWriteEnd); injection Hrun as <- <-; reflexivity.
Qed.

Lemma first_failure_none env t width height :
  first_failure env t width height = None <-> conversion_ok env t width height = true.
Proof.
  unfold first_failure, conversion_ok, write_ok.
  destruct (raster_alloc_ok env width height); simpl; [|split; congruence].
  destruct (bool_decide _); simpl; [|split; congruence].
  destruct (fopen_ok env); simpl; [|split; congruence].
  destruct (create_write_struct_ok env); simpl; [|split; congruence].
  destruct (create_info_struct_ok env); simpl; [|split; congruence].
  destruct (png_error env CSetIHDR || png_check_IHDR width height); simpl;
    [split; congruence|].
  destruct (png_error env CWriteInfo); simpl; [split; congruence|].
  destruct (malloc_ok env); simpl; [|split; congruence].
  destruct (rows_until_error _ _).2, (png_error env CWriteEnd); simpl; split; congruence.
Qed.

Lemma raii_outcome env t fn w h :
  tag_imagewidth t = Some w -> tag_imagelength t = Some h ->
  fst (save_tiff_as_png_raii env (Some t) (Some fn) init_st) =
  if raster_undefined env (Z.of_N w) (Z.of_N h) then Undefined else
  match first_failure env t (Z.of_N w) (Z.of_N h) with
  | Some m => Thrown m
  | None => Ok ()
  end.
Proof.
  intros Hw Hh. rewrite <- transcode_steps_what with (fn := fn).
  unfold save_tiff_as_png_raii. rewrite Hw, Hh.
  unfold with_dtor. unfold_monad. simpl.
  destruct (transcode_steps _ _ _ _ _ _) as [[] s1]; simpl;
    try destruct (Resources_dtor s1); reflexivity.
Qed.

(** X3: The revision of part_000 reports the first step that fails:
    unless its behaviour is undefined at the raster ([npixels] overflows,
    or the buffer allocated is shorter than the image), its
    [save_tiff_as_png] returns normally exactly when every step succeeds,
    and otherwise throws the message of the first failing step
    (["Failed to allocate raster"], ["TIFFReadRGBAImageOriented failed"],
    ["Failed to open output PNG file"], ["png_create_write_struct failed"],
    ["png_create_info_struct failed"], ["Failed to allocate row buffer"],
    or ["libpng internal processing error"] for an error inside libpng). *)
Theorem raii_throws_first_failure env t fn w h :
  tag_imagewidth t = Some w -> tag_imagelength t = Some h ->
  fst (save_tiff_as_png_raii env (Some t) (Some fn) init_st) =
  if raster_undefined env (Z.of_N w) (Z.of_N h) then Undefined else
  match first_failure env t (Z.of_N w) (Z.of_N h) with
  | Some m => Thrown m
  | None => Ok ()
  end.
Proof. exact (raii_outcome env t fn w h). Qed.

Lemma raii_throws_first_failure_witness :
  fst (save_tiff_as_png_raii (mkEnv true (fun _ => 7) false true true true (fun _ => 9)
                                (fun _ => false))
         (Some (image 2 3 8 3 2 (fun x y => x))) (Some (str "a.png")) init_st) =
  Thrown "Failed to open output PNG file".
Proof.
  rewrite (raii_throws_first_failure (mkEnv true (fun _ => 7) false true true true
             (fun _ => 9) (fun _ => false)) (image 2 3 8 3 2 (fun x y => x))
             (str "a.png") 2 3 eq_refl eq_refl).
  vm_compute. reflexivity.
Defined.

(** X4: The [main] of part_000 exits with the same status as the one of
    src/main.cc lines 112-153 on every command line and in every
    environment, and neither returns where the other does not; it prints
    nothing on success, and on a failed conversion one line with the
    message of the exception instead of the output name. *)
Theorem main_raii_exit_status w argv0 args :
  main_raii w argv0 args =
    match main w argv0 args with
    | None => None
    | Some (code, _) =>
        Some (code,
          match args with
          | [] => [str "Usage: " ++ argv0 ++ str " <tiff_file>"]
          | tiff_file :: _ =>
              match TIFFOpen w tiff_file with
              | None => [str "Error: Could not open TIFF file"]
              | Some tif =>
                  match save_what (conv_env w) tif with
                  | None => []
                  | Some m => [str "Failed to convert TIFF to PNG: " ++ str m]
                  end
              end
          end)
    end.
Proof.
  destruct args as [|tiff_file rest]; [reflexivity|].
  unfold main_raii, main.
  destruct (TIFFOpen w tiff_file) as [tif|]; [|reflexivity].
  unfold save_what.
  destruct (tag_imagewidth tif) as [wd|] eqn:Hw;
    [|unfold save_tiff_as_png_raii, save_tiff_as_png; rewrite Hw; reflexivity].
  destruct (tag_imagelength tif) as [ht|] eqn:Hh;
    [|unfold save_tiff_as_png_raii, save_tiff_as_png; rewrite Hw, Hh; reflexivity].
  rewrite (raii_outcome (conv_env w) tif (output_file_of tiff_file) wd ht Hw Hh).
  destruct (save_tiff_as_png (conv_env w) (Some tif) (Some (output_file_of tiff_file)) init_st)
    as [o s'] eqn:E.
  apply save_run with (w := wd) (h := ht) in E as (_ & Hd); [|assumption..].
  simpl. destruct (raster_undefined _ _ _); [subst o; reflexivity|].
  destruct Hd as [-> _].
  pose proof (first_failure_none (conv_env w) tif (Z.of_N wd) (Z.of_N ht)) as Hn.
  destruct (first_failure _ _ _ _) as [m|];
    destruct (conversion_ok _ _ _ _); try reflexivity;
    exfalso; destruct Hn as [H1 H2]; [specialize (H2 eq_refl) | specialize (H1 eq_refl)];
    discriminate.
Qed.

(** ** The revisions with one buffer per row *)

Ltac unfold_monadV :=
  unfold mbind, MV_bind, mret, MV_ret, lift, throwV, try_catchV,
    get_row_pointers, set_row_pointers in *.

Lemma fold_left_ext_in {A B} (f g : A -> B -> A) (l : list B) (a : A) :
  (forall acc x, x ∈ l -> f acc x = g acc x) -> fold_left f l a = fold_left g l a.
Proof.
  revert a. induction l as [|x l IH]; intros a Hfg; simpl; [reflexivity|].
  rewrite Hfg by (apply elem_of_cons; left; reflexivity).
  apply IH. intros acc y Hy. apply Hfg, elem_of_cons. right. exact Hy.
Qed.

Lemma store_pixel_ptr_eq row x px :
  0 <= x -> x * 4 + 3 < 2 ^ 32 -> store_pixel_ptr row x px = store_pixel row x px.
Proof.
  intros. unfold store_pixel_ptr, store_pixel.
  rewrite (u32_small (x * 4)) by lia.
  rewrite !(u32_small (x * 4 + _)) by lia. reflexivity.
Qed.

(** Writing through [row + x * 4] and through [row[x * 4 + k]] store the
    same bytes. *)
Lemma fill_row_ptr_eq raster width y row :
  0 <= width -> width * 4 <= 2 ^ 32 ->
  fill_row_ptr raster width y row = fill_row raster width y row.
Proof.
  intros Hw Hb. unfold fill_row_ptr, fill_row. apply fold_left_ext_in.
  intros acc x Hx. apply elem_of_seqZ in Hx. apply store_pixel_ptr_eq; lia.
Qed.

Lemma free_rows_run rp ys s rest :
  live s = replicate (length (filter (fun y => is_Some (rp !!! Z.to_nat y)) ys)) RRow ++ rest ->
  free_rows rp ys s = (Ok (), mkSt (locals s) rest (trace s)).
Proof.
  revert s. induction ys as [|y ys IH]; intros [l lv tr] Hl; simpl in Hl |- *.
  - subst lv. reflexivity.
  - rewrite filter_cons in Hl. unfold free_ptr.
    destruct (rp !!! Z.to_nat y) as [v|].
    + rewrite decide_True in Hl by eauto. rewrite bool_decide_true by eauto.
      unfold_monad. simpl in Hl |- *. subst lv. simpl.
      apply (IH (mkSt l _ tr)). reflexivity.
    + rewrite decide_False in Hl by (intros [? ?]; discriminate).
      rewrite bool_decide_false by (intros [? ?]; discriminate).
      unfold_monad. apply (IH (mkSt l lv tr)). exact Hl.
Qed.

Lemma length_built g k : length (built g k) = k.
Proof. unfold built. rewrite length_fmap, length_seqZ, Nat2Z.id. reflexivity. Qed.

Lemma built_lookup g k i :
  (i < k)%nat -> built g k !! i = Some (Some (g (Z.of_nat i))).
Proof.
  intros Hi. unfold built. rewrite list_lookup_fmap, lookup_seqZ_lt by lia.
  simpl. rewrite Z.add_0_l. reflexivity.
Qed.

Lemma built_snoc g k : built g (S k) = built g k ++ [Some (g (Z.of_nat k))].
Proof. unfold built. rewrite seqZ_S, fmap_app. reflexivity. Qed.

Lemma built_insert g k n v :
  <[k := Some v]> (built g k ++ replicate (S n) None) =
    built g k ++ Some v :: replicate n None.
Proof.
  rewrite <- (Nat.add_0_r k) at 1. rewrite <- (length_built g k) at 1.
  rewrite insert_app_r. reflexivity.
Qed.

Lemma built_lookup_total g k j i :
  (i < k)%nat -> (built g k ++ replicate j None) !!! i = Some (g (Z.of_nat i)).
Proof.
  intros Hi. rewrite list_lookup_total_alt, lookup_app_l by (rewrite length_built; lia).
  rewrite built_lookup by exact Hi. reflexivity.
Qed.

Lemma built_lookup_total_none g k j i :
  (k <= i)%nat -> (built g k ++ replicate j None) !!! i = None.
Proof.
  intros Hi. rewrite list_lookup_total_alt, lookup_app_r by (rewrite length_built; lia).
  rewrite length_built. destruct (decide (i - k < j)%nat).
  - rewrite lookup_replicate_2 by lia. reflexivity.
  - rewrite (proj1 (lookup_replicate_None _ _ _)) by lia. reflexivity.
Qed.

(** Of the pointers [0 .. n-1], the first [k] are the rows built. *)
Lemma count_built g k j (n : nat) :
  length (filter (fun y => is_Some ((built g k ++ replicate j None) !!! Z.to_nat y))
            (seqZ 0 (Z.of_nat n))) = Nat.min k n.
Proof.
  induction n as [|n IH]; [simpl; lia|].
  rewrite seqZ_S, filter_app, length_app, IH.
  replace (0 + Z.of_nat n) with (Z.of_nat n) by lia.
  destruct (decide (n < k)%nat).
  - rewrite filter_cons, decide_True
      by (rewrite Nat2Z.id, built_lookup_total by assumption; eauto).
    simpl. lia.
  - rewrite filter_cons, decide_False
      by (rewrite Nat2Z.id, built_lookup_total_none by lia; intros [? ?]; discriminate).
    simpl. lia.
Qed.

Lemma png_write_rows_run env rp g ys s o s' :
  (forall y, y ∈ ys -> rp !!! Z.to_nat y = Some (g y)) ->
  png_write_rows env rp ys s = (o, s') ->
  let ru := rows_until_error (fun y => png_error env (CWriteRow y)) ys in
  o = (if ru.2 then Thrown "libpng internal processing error" else Ok ()) /\
  locals s' = locals s /\ live s' = live s /\
  trace s' = trace s ++ ((fun y => EvWriteRow y (g y)) <$> ru.1).
Proof.
  revert s. induction ys as [|y ys IH]; intros [l lv tr] Hg Hrun.
  - simpl in Hrun. injection Hrun as <- <-. simpl. rewrite app_nil_r. auto.
  - cbn [png_write_rows] in Hrun. unfold png_write_row in Hrun. unfold_monad.
    rewrite Hg in Hrun by (apply elem_of_cons; left; reflexivity).
    simpl in Hrun. cbn zeta. cbn [rows_until_error].
    destruct (png_error env (CWriteRow y)).
    + injection Hrun as <- <-. simpl. auto.
    + edestruct IH as (Ho & Hl & Hlv & Htr);
        [intros y' Hy'; apply Hg, elem_of_cons; right; exact Hy' | exact Hrun |].
      simpl in Hl, Hlv, Htr.
      destruct (rows_until_error _ ys) as [r e]. simpl in Ho |- *.
      split; [exact Ho|]. split; [exact Hl|]. split; [exact Hlv|].
      rewrite Htr, <- app_assoc. reflexivity.
Qed.

Lemma built_rows_lookup g (n : nat) y :
  y ∈ seqZ 0 (Z.of_nat n) -> (built g n ++ replicate 0 None) !!! Z.to_nat y = Some (g y).
Proof.
  intros Hy. apply elem_of_seqZ in Hy.
  rewrite built_lookup_total by lia. rewrite Z2Nat.id by lia. reflexivity.
Qed.

Lemma built_insert_row raster width m n garbage :
  0 <= width -> width * 4 <= 2 ^ 32 -> length garbage = Z.to_nat (width * 4) ->
  <[Z.to_nat (Z.of_nat m) := Some (fill_row_ptr raster width (Z.of_nat m) garbage)]>
    (built (row_bytes raster width) m ++ None :: replicate n None) =
  built (row_bytes raster width) (S m) ++ replicate n None.
Proof.
  intros Hw Hb Hl. change (None :: replicate n None) with (replicate (S n) (@None (list Z))).
  rewrite Nat2Z.id, built_insert, built_snoc, <- app_assoc.
  rewrite fill_row_ptr_eq, fill_row_concat by assumption. reflexivity.
Qed.

Lemma seqZ_of_nat_cons m n :
  seqZ (Z.of_nat m) (Z.of_nat (S n)) = Z.of_nat m :: seqZ (Z.of_nat (S m)) (Z.of_nat n).
Proof.
  rewrite seqZ_cons by lia. f_equal. f_equal; lia.
Qed.

(** The loop of part_001 over the rows: it allocates and fills rows while
    their allocations succeed, and throws at the first that fails. *)
Lemma build_rows_vec_run env rok width raster L (m n : nat) sv o sv' :
  0 <= width -> width * 4 <= 2 ^ 32 ->
  l_raster (locals (base sv)) = Some raster ->
  row_pointers sv = built (row_bytes raster width) m ++ replicate n None ->
  live (base sv) = replicate m RRow ++ L ->
  build_rows_vec env rok width (seqZ (Z.of_nat m) (Z.of_nat n)) sv = (o, sv') ->
  let c := ok_prefix rok (seqZ (Z.of_nat m) (Z.of_nat n)) in
  locals (base sv') = locals (base sv) /\ trace (base sv') = trace (base sv) /\
  live (base sv') = replicate (m + c) RRow ++ L /\
  row_pointers sv' = built (row_bytes raster width) (m + c) ++ replicate (n - c) None /\
  o = (if forallb rok (seqZ (Z.of_nat m) (Z.of_nat n)) then Ok ()
       else Thrown "Failed to allocate row buffer").
Proof.
  intros Hw Hb. revert m sv.
  induction n as [|n IH]; intros m [[l lv tr] rp] Hr Hrp Hlv Hrun;
    simpl in Hr, Hrp, Hlv; cbn zeta.
  - simpl in Hrun. injection Hrun as <- <-. simpl.
    rewrite Nat.add_0_r. auto.
  - rewrite seqZ_of_nat_cons in Hrun |- *.
    cbn [build_rows_vec] in Hrun. unfold malloc_row_at in Hrun.
    cbn [ok_prefix forallb]. destruct (rok (Z.of_nat m)) eqn:Hok.
    + unfold_monadV. unfold_monad. simpl in Hrun. rewrite Hr in Hrun. simpl in Hrun.
      rewrite Hrp in Hrun. rewrite built_insert_row in Hrun
        by (try rewrite length_fmap, length_seqZ; auto).
      apply IH in Hrun; [| exact Hr | reflexivity | simpl; rewrite Hlv; reflexivity].
      destruct Hrun as (Hl & Htr & Hlv' & Hrp' & Ho). simpl in Hl, Htr.
      replace (m + S _)%nat with (S m + ok_prefix rok (seqZ (Z.of_nat (S m)) (Z.of_nat n)))%nat
        by lia.
      simpl andb. auto.
    + unfold_monadV. simpl in Hrun. injection Hrun as <- <-. simpl.
      rewrite Nat.add_0_r. auto.
Qed.

(** The loop of src/main.cc over the rows: when the allocation of row [y]
    fails, it frees rows [0 .. y-1], the libpng structures, the file and
    the raster. *)
Lemma build_rows_manual_run env rok width raster (m n : nat) sv o sv' :
  0 <= width -> width * 4 <= 2 ^ 32 ->
  l_raster (locals (base sv)) = Some raster ->
  row_pointers sv = built (row_bytes raster width) m ++ replicate n None ->
  live (base sv) = replicate m RRow ++ [RPngInfo; RPngStruct; RFile; RRaster] ->
  build_rows_manual env rok width (seqZ (Z.of_nat m) (Z.of_nat n)) sv = (o, sv') ->
  locals (base sv') = locals (base sv) /\ trace (base sv') = trace (base sv) /\
  if forallb rok (seqZ (Z.of_nat m) (Z.of_nat n)) then
    o = Ok true /\
    live (base sv') = replicate (m + n) RRow ++ [RPngInfo; RPngStruct; RFile; RRaster] /\
    row_pointers sv' = built (row_bytes raster width) (m + n) ++ replicate 0 None
  else o = Ok false /\ live (base sv') = [].
Proof.
  intros Hw Hb. revert m sv.
  induction n as [|n IH]; intros m [[l lv tr] rp] Hr Hrp Hlv Hrun;
    simpl in Hr, Hrp, Hlv.
  - simpl in Hrun. injection Hrun as <- <-. simpl.
    rewrite Nat.add_0_r. auto.
  - rewrite seqZ_of_nat_cons in Hrun |- *.
    cbn [build_rows_manual] in Hrun. unfold malloc_row_at in Hrun.
    cbn [forallb]. destruct (rok (Z.of_nat m)) eqn:Hok.
    + unfold_monadV. unfold_monad. simpl in Hrun. rewrite Hr in Hrun. simpl in Hrun.
      rewrite Hrp, built_insert_row in Hrun
        by (try rewrite length_fmap, length_seqZ; auto).
      apply IH in Hrun; [| exact Hr | reflexivity | simpl; rewrite Hlv; reflexivity].
      destruct Hrun as (Hl & Htr & Hrest). simpl in Hl, Htr.
      split; [exact Hl|]. split; [exact Htr|]. simpl andb.
      replace (m + S n)%nat with (S m + n)%nat by lia. exact Hrest.
    + unfold_monadV. unfold_monad. simpl in Hrun.
      rewrite (free_rows_run _ _ _ [RPngInfo; RPngStruct; RFile; RRaster]) in Hrun
        by (simpl; rewrite Hlv, Hrp;
            change (None :: replicate n None) with (replicate (S n) (@None (list Z)));
            rewrite count_built, Nat.min_id; reflexivity).
      unfold png_destroy_write_struct in Hrun. unfold_monad. simpl in Hrun.
      injection Hrun as <- <-. simpl. auto.
Qed.

(** Closes a case of a run that stops at a failing step, with a
    conclusion of many conjuncts. *)
Ltac step_fail_split Hrun :=
  simpl in Hrun |- *; try (injection Hrun as <- <-; simpl; repeat split; eauto; fail).

Lemma header_steps_run env t fn (w h : N) o s' :
  header_steps env t fn (Z.of_N w) (Z.of_N h) (mkSt null_locals [] []) = (o, s') ->
  trace s' = header_trace env t fn (Z.of_N w) (Z.of_N h) /\
  (if raster_undefined env (Z.of_N w) (Z.of_N h) then o = Undefined
   else
   live s' = resources_of (locals s') /\ l_row (locals s') = None /\
   (l_info_ptr (locals s') = true -> l_png_ptr (locals s') = true) /\
   (if header_ok env t (Z.of_N w) (Z.of_N h)
    then o = Ok () /\
         locals s' = mkLocals (Some (decoded t (Z.of_N w) (Z.of_N h))) true true true None
    else exists e, o = Thrown e)).
Proof.
  intros Hrun.
  unfold header_steps, alloc_raster, TIFFmalloc, TIFFReadRGBAImageOriented, fopen,
    png_create_write_struct, png_create_info_struct, png_set_IHDR,
    png_write_info in Hrun.
  unfold_monad. unfold_monad.
  unfold header_trace, header_ok, decoded, raster_undefined, raster_alloc_ok, raster_short,
    npixels_overflow.
  simpl in Hrun.
  raster_steps env w h Hrun step_fail_split.
  destruct (read_rgba_image t ORIENTATION_TOPLEFT) as [f|];
    [rewrite app_nil_r in Hrun|]; step_fail_split Hrun.
  destruct (fopen_ok env); step_fail_split Hrun.
  destruct (create_write_struct_ok env); step_fail_split Hrun.
  destruct (create_info_struct_ok env); step_fail_split Hrun.
  destruct (png_error env CSetIHDR || png_check_IHDR (Z.of_N w) (Z.of_N h));
    step_fail_split Hrun.
  destruct (png_error env CWriteInfo); step_fail_split Hrun.
Qed.

Lemma header_ok_defined env t width height :
  header_ok env t width height = true -> raster_undefined env width height = false.
Proof.
  unfold header_ok, raster_undefined.
  destruct (npixels_overflow width height), (raster_alloc_ok env width height),
    (raster_short width height); simpl; intros H; congruence.
Qed.

Lemma header_ok_undefined env t width height :
  raster_undefined env width height = true -> header_ok env t width height = false.
Proof.
  intros Hu. destruct (header_ok env t width height) eqn:E; [|reflexivity].
  apply header_ok_defined in E. congruence.
Qed.

Lemma vec_cleanup_run s :
  live s = resources_of (locals s) -> l_row (locals s) = None ->
  (l_info_ptr (locals s) = true -> l_png_ptr (locals s) = true) ->
  vec_cleanup s = (Ok (), mkSt (locals s) [] (trace s)).
Proof.
  destruct s as [[lr lf lp li lw] lv tr]; simpl. intros -> -> Hip.
  unfold vec_cleanup, png_destroy_write_struct. unfold_monad. unfold_monad.
  destruct lr, lf, lp, li; simpl; try (specialize (Hip eq_refl); discriminate);
    reflexivity.
Qed.

Lemma header_ok_dims env t w h :
  header_ok env t (Z.of_N w) (Z.of_N h) = true ->
  0 < Z.of_N w <= PNG_USER_WIDTH_MAX /\ 0 < Z.of_N h <= PNG_USER_HEIGHT_MAX.
Proof.
  unfold header_ok. intros H. repeat rewrite andb_true_iff in H.
  destruct H as [[_ H] _]. apply negb_true_iff, orb_false_iff in H as [_ H].
  apply png_check_IHDR_false in H. lia.
Qed.

Lemma ok_prefix_forallb p ys : forallb p ys = true -> ok_prefix p ys = length ys.
Proof.
  induction ys as [|y ys IH]; simpl; [reflexivity|].
  intros H. apply andb_true_iff in H as [-> H]. rewrite IH by exact H. reflexivity.
Qed.

Lemma ok_prefix_le p ys : (ok_prefix p ys <= length ys)%nat.
Proof. induction ys as [|y ys IH]; simpl; [lia|]. destruct (p y); lia. Qed.

Lemma save_vec_run env heap t fn w h o sv' :
  tag_imagewidth t = Some w -> tag_imagelength t = Some h ->
  save_tiff_as_png_vec env heap (Some t) (Some fn) init_stv = (o, sv') ->
  let W := Z.of_N w in let H := Z.of_N h in
  trace (base sv') = header_trace env t fn W H ++
    (if header_ok env t W H && vector_ok heap && forallb (row_malloc_ok heap) (seqZ 0 H)
     then rows_trace env (decoded t W H) W H else []) /\
  (if raster_undefined env W H then o = Undefined
   else o = Ok (header_ok env t W H && vector_ok heap &&
                forallb (row_malloc_ok heap) (seqZ 0 H) && write_ok env H) /\
        live (base sv') = []).
Proof.
  intros Hw Hh Hrun. cbn zeta. unfold save_tiff_as_png_vec in Hrun. rewrite Hw, Hh in Hrun.
  remember (header_steps env t fn (Z.of_N w) (Z.of_N h)) as hs eqn:Ehs.
  remember (seqZ 0 (Z.of_N h)) as ys eqn:Eys.
  unfold write_ok, rows_trace. rewrite <- Eys.
  unfold_monadV. unfold_monad. simpl in Hrun.
  destruct (hs (mkSt null_locals [] [])) as [o1 s1] eqn:E1. rewrite Ehs in E1.
  apply header_steps_run in E1 as (Htr1 & Hd1).
  destruct (raster_undefined env (Z.of_N w) (Z.of_N h)) eqn:Hu.
  { subst o1. simpl in Hrun. injection Hrun as <- <-. simpl.
    rewrite (header_ok_undefined env t _ _ Hu). simpl. rewrite Htr1, app_nil_r. auto. }
  destruct Hd1 as (Hlv1 & Hrow1 & Hip1 & Hok1).
  destruct (header_ok env t (Z.of_N w) (Z.of_N h)) eqn:Hhok; simpl andb.
  2:{ destruct Hok1 as [e ->]. simpl in Hrun.
      rewrite vec_cleanup_run in Hrun by assumption.
      injection Hrun as <- <-. simpl. rewrite Htr1, app_nil_r. auto. }
  destruct Hok1 as [-> Hloc1]. simpl in Hrun.
  apply header_ok_dims in Hhok as Hdims. unfold PNG_USER_WIDTH_MAX, PNG_USER_HEIGHT_MAX in Hdims.
  unfold vector_alloc in Hrun.
  rewrite (proj2 (Z.ltb_lt 0 (Z.of_N h))) in Hrun by lia.
  destruct (vector_ok heap); simpl in Hrun |- *.
  2:{ rewrite vec_cleanup_run in Hrun by assumption.
      injection Hrun as <- <-. simpl. rewrite Htr1, app_nil_r. auto. }
  assert (Eys' : ys = seqZ (Z.of_nat 0) (Z.of_nat (Z.to_nat (Z.of_N h))))
    by (subst ys; f_equal; lia).
  destruct (build_rows_vec _ _ _ ys _) as [o2 [b2 rp2]] eqn:E2.
  rewrite Eys' in E2.
  apply (build_rows_vec_run env (row_malloc_ok heap) (Z.of_N w)
           (decoded t (Z.of_N w) (Z.of_N h)) [RPngInfo; RPngStruct; RFile; RRaster]) in E2;
    [| lia | lia | simpl; rewrite Hloc1; reflexivity | reflexivity
     | simpl; rewrite Hlv1, Hloc1; reflexivity].
  rewrite <- Eys' in E2. cbn zeta in E2. simpl in E2.
  destruct E2 as (Hloc2 & Htr2 & Hlv2 & Hrp2 & Ho2).
  assert (Hlen : length ys = Z.to_nat (Z.of_N h))
    by (rewrite Eys', length_seqZ, Nat2Z.id; reflexivity).
  destruct (forallb (row_malloc_ok heap) ys) eqn:Ef; subst o2; simpl in Hrun.
  - rewrite ok_prefix_forallb, Hlen in Hlv2 by exact Ef.
    rewrite ok_prefix_forallb, Hlen, Nat.sub_diag in Hrp2 by exact Ef.
    unfold png_write_image in Hrun. rewrite <- Eys in Hrun.
    destruct (png_write_rows env rp2 ys b2) as [o3 b3] eqn:E3.
    apply png_write_rows_run with (g := row_bytes (decoded t (Z.of_N w) (Z.of_N h)) (Z.of_N w))
      in E3; [| intros y Hy; rewrite Hrp2; rewrite Eys' in Hy; apply built_rows_lookup; exact Hy].
    cbn zeta in E3. destruct E3 as (Ho3 & Hl3 & Hlv3 & Htr3).
    destruct (rows_until_error _ ys) as [r e]. simpl in Ho3, Htr3 |- *.
    destruct e; subst o3; simpl in Hrun.
    + rewrite (free_rows_run _ _ _ [RPngInfo; RPngStruct; RFile; RRaster]) in Hrun
        by (rewrite Hlv3, Hlv2, Hrp2, count_built, length_app, length_built;
            simpl; do 2 f_equal; lia).
      simpl in Hrun.
      rewrite vec_cleanup_run in Hrun by (simpl; rewrite ?Hl3, Hloc2, Hloc1; reflexivity).
      injection Hrun as <- <-. simpl. rewrite Htr3, Htr2, Htr1, app_nil_r. auto.
    + unfold png_write_end in Hrun. unfold_monad. simpl in Hrun.
      destruct (png_error env CWriteEnd); simpl in Hrun.
      * rewrite (free_rows_run _ _ _ [RPngInfo; RPngStruct; RFile; RRaster]) in Hrun
          by (simpl; rewrite Hlv3, Hlv2, Hrp2, count_built, length_app, length_built;
              simpl; do 2 f_equal; lia).
        simpl in Hrun.
        rewrite vec_cleanup_run in Hrun by (simpl; rewrite ?Hl3, Hloc2, Hloc1; reflexivity).
        injection Hrun as <- <-. simpl. rewrite Htr3, Htr2, Htr1, <- app_assoc. auto.
      * rewrite (free_rows_run _ _ _ [RPngInfo; RPngStruct; RFile; RRaster]) in Hrun
          by (simpl; rewrite Hlv3, Hlv2, Hrp2, Eys'; change (Z.of_nat 0) with 0;
              rewrite count_built, Nat.min_id; reflexivity).
        unfold png_destroy_write_struct in Hrun. unfold_monad. simpl in Hrun.
        injection Hrun as <- <-. simpl. rewrite Htr3, Htr2, Htr1, <- app_assoc. auto.
  - rewrite (free_rows_run _ _ _ [RPngInfo; RPngStruct; RFile; RRaster]) in Hrun
      by (rewrite Hlv2, Hrp2, count_built, length_app, length_built, length_replicate;
          do 2 f_equal; lia).
    simpl in Hrun.
    rewrite vec_cleanup_run in Hrun by (simpl; rewrite Hloc2, Hloc1; reflexivity).
    injection Hrun as <- <-. simpl. rewrite Htr2, Htr1, app_nil_r. auto.
Qed.

Lemma remove_res_rows r n l :
  r <> RRow -> remove_res r (replicate n RRow ++ l) = replicate n RRow ++ remove_res r l.
Proof.
  intros Hr. induction n as [|n IH]; simpl; [reflexivity|].
  rewrite decide_False by exact Hr. rewrite IH. reflexivity.
Qed.

Lemma save_manual_run env heap t fn w h o sv' :
  tag_imagewidth t = Some w -> tag_imagelength t = Some h ->
  save_tiff_as_png_manual env heap (Some t) (Some fn) init_stv = (o, sv') ->
  let W := Z.of_N w in let H := Z.of_N h in
  let rows_ok := forallb (row_malloc_ok heap) (seqZ 0 H) in
  trace (base sv') = header_trace env t fn W H ++
    (if header_ok env t W H && vector_ok heap && row_data_ok heap && rows_ok
     then rows_trace env (decoded t W H) W H else []) /\
  (if raster_undefined env W H then o = Undefined
   else if header_ok env t W H && negb (vector_ok heap && row_data_ok heap)
   then o = Thrown "std::bad_alloc"
   else if header_ok env t W H && rows_ok && negb (write_ok env H) then o = Undefined
   else o = Ok (header_ok env t W H && rows_ok && write_ok env H) /\ live (base sv') = []).
Proof.
  intros Hw Hh Hrun. cbn zeta. unfold save_tiff_as_png_manual in Hrun. rewrite Hw, Hh in Hrun.
  unfold alloc_raster, TIFFmalloc, TIFFReadRGBAImageOriented, fopen,
    png_create_write_struct, png_create_info_struct, png_set_IHDR,
    png_write_info, png_write_image, png_write_end, png_destroy_write_struct,
    longjmp_past_vectors in Hrun.
  remember (seqZ 0 (Z.of_N h)) as ys eqn:Eys.
  unfold header_ok, header_trace, write_ok, rows_trace, decoded,
    raster_undefined, raster_alloc_ok, raster_short, npixels_overflow.
  rewrite <- Eys.
  unfold_monadV. unfold_monad. unfold_monad. simpl in Hrun.
  raster_steps env w h Hrun step_fail_split.
  destruct (read_rgba_image t ORIENTATION_TOPLEFT) as [f|];
    [rewrite app_nil_r in Hrun|]; step_fail_split Hrun.
  destruct (fopen_ok env); step_fail_split Hrun.
  destruct (create_write_struct_ok env); step_fail_split Hrun.
  destruct (create_info_struct_ok env); step_fail_split Hrun.
  destruct (png_error env CSetIHDR || png_check_IHDR (Z.of_N w) (Z.of_N h))
    eqn:Eihdr; step_fail_split Hrun.
  destruct (png_error env CWriteInfo); step_fail_split Hrun.
  apply orb_false_iff in Eihdr as [_ Hck].
  apply png_check_IHDR_false in Hck. unfold PNG_USER_WIDTH_MAX, PNG_USER_HEIGHT_MAX in Hck.
  unfold vector_alloc in Hrun.
  rewrite (proj2 (Z.ltb_lt 0 (Z.of_N h))), (proj2 (Z.ltb_lt 0 (Z.of_N w * 4))) in Hrun
    by lia.
  destruct (vector_ok heap); simpl in Hrun |- *;
    [|injection Hrun as <- <-; simpl; rewrite ?app_nil_r; auto].
  destruct (row_data_ok heap); simpl in Hrun |- *;
    [|injection Hrun as <- <-; simpl; rewrite ?app_nil_r; auto].
  assert (Eys' : ys = seqZ (Z.of_nat 0) (Z.of_nat (Z.to_nat (Z.of_N h))))
    by (subst ys; f_equal; lia).
  destruct (build_rows_manual _ _ _ ys _) as [o2 [b2 rp2]] eqn:E2.
  rewrite Eys' in E2.
  apply (build_rows_manual_run env (row_malloc_ok heap) (Z.of_N w)
           (rgba_raster f (Z.of_N w) (Z.of_N h)))
    in E2; [| lia | lia | reflexivity | reflexivity | reflexivity].
  rewrite <- Eys' in E2. simpl in E2.
  destruct E2 as (Hloc2 & Htr2 & E2).
  destruct (forallb (row_malloc_ok heap) ys) eqn:Ef; destruct E2 as [-> E2];
    simpl in Hrun |- *.
  2:{ injection Hrun as <- <-. simpl. rewrite E2, Htr2. auto. }
  destruct E2 as [Hlv2 Hrp2].
  destruct (png_write_rows env rp2 ys b2) as [o3 b3] eqn:E3.
  apply png_write_rows_run with (g := row_bytes (rgba_raster f (Z.of_N w) (Z.of_N h)) (Z.of_N w))
    in E3; [| intros y Hy; rewrite Hrp2; rewrite Eys' in Hy; apply built_rows_lookup; exact Hy].
  cbn zeta in E3. destruct E3 as (Ho3 & Hl3 & Hlv3 & Htr3).
  destruct (rows_until_error _ ys) as [r e]. simpl in Ho3, Htr3 |- *.
  destruct e; subst o3; simpl in Hrun.
  - injection Hrun as <- <-. simpl. rewrite Htr3, Htr2, app_nil_r. auto.
  - destruct (png_error env CWriteEnd); simpl in Hrun.
    + injection Hrun as <- <-. simpl. rewrite Htr3, Htr2, <- app_assoc. auto.
    + rewrite (free_rows_run _ _ _ [RPngInfo; RPngStruct; RFile; RRaster]) in Hrun
        by (simpl; rewrite Hlv3, Hlv2, Hrp2, Eys'; change (Z.of_nat 0) with 0;
            change (built ?g ?k ++ []) with (built g k ++ replicate 0 (@None (list Z)));
            rewrite count_built, Nat.min_id; reflexivity).
      simpl in Hrun. injection Hrun as <- <-. simpl.
      rewrite Htr3, Htr2, <- app_assoc. auto.
Qed.

Lemma conversion_ok_split env t width height :
  raster_undefined env width height = false ->
  conversion_ok env t width height =
  header_ok env t width height && malloc_ok env && write_ok env height.
Proof.
  unfold raster_undefined, conversion_ok, header_ok, write_ok.
  destruct (npixels_overflow width height), (raster_alloc_ok env width height),
    (raster_short width height); simpl; intros Hu; try discriminate Hu;
    try rewrite !andb_assoc; reflexivity.
Qed.

Lemma emitted_trace_split env t fn width height :
  emitted_trace env t fn width height =
  header_trace env t fn width height ++
    (if header_ok env t width height && malloc_ok env
     then rows_trace env (decoded t width height) width height else []).
Proof.
  unfold emitted_trace, header_trace, header_ok, rows_trace, decoded.
  destruct (npixels_overflow width height); simpl; [reflexivity|].
  destruct (raster_alloc_ok env width height); simpl; [|reflexivity].
  destruct (raster_short width height); simpl; [reflexivity|].
  destruct (read_rgba_image t ORIENTATION_TOPLEFT) as [f|]; simpl; [|reflexivity].
  destruct (fopen_ok env), (create_write_struct_ok env), (create_info_struct_ok env);
    simpl; try reflexivity.
  destruct (png_error env CSetIHDR || png_check_IHDR width height); simpl; [reflexivity|].
  destruct (png_error env CWriteInfo), (malloc_ok env); simpl; try reflexivity.
Qed.

Lemma forallb_const_seqZ (b : bool) n :
  0 < n -> forallb (fun _ => b) (seqZ 0 n) = b.
Proof.
  intros Hn. destruct b.
  - apply forallb_forall. reflexivity.
  - rewrite seqZ_cons by exact Hn. reflexivity.
Qed.

(** ** The revision of src/unnamed/part_001 *)



(** X6: Unless its behaviour is undefined at the raster, the
    [save_tiff_as_png] of part_001 returns [true] exactly when the steps
    before the rows, the [resize] of [row_pointers], the [malloc] of every
    row and every libpng write succeed; the rows are written only when
    every row buffer was allocated, and the external calls are those of
    the steps before the rows followed, in that case, by the row writes
    and [png_write_end]. *)
Theorem vec_result env heap t fn w h :
  tag_imagewidth t = Some w -> tag_imagelength t = Some h ->
  let r := save_tiff_as_png_vec env heap (Some t) (Some fn) init_stv in
  let W := Z.of_N w in let H := Z.of_N h in
  fst r = (if raster_undefined env W H then Undefined
           else Ok (header_ok env t W H && vector_ok heap &&
                    forallb (row_malloc_ok heap) (seqZ 0 H) && write_ok env H)) /\
  trace (base (snd r)) = header_trace env t fn W H ++
    (if header_ok env t W H && vector_ok heap && forallb (row_malloc_ok heap) (seqZ 0 H)
     then rows_trace env (decoded t W H) W H else []).
Proof.
  intros Hw Hh. cbn zeta.
  destruct (save_tiff_as_png_vec _ _ _ _ _) as [o sv'] eqn:E.
  apply save_vec_run with (w := w) (h := h) in E as (Htr & Hd); [|assumption..].
  simpl. split; [|exact Htr].
  destruct (raster_undefined _ _ _); [exact Hd | exact (proj1 Hd)].
Qed.

Lemma vec_result_witness :
  fst (save_tiff_as_png_vec env_ok (mkHeap true true third_row_fails)
         (Some (image 2 3 8 3 2 (fun x y => x))) (Some (str "a.png")) init_stv) = Ok false /\
  trace (base (snd (save_tiff_as_png_vec env_ok (mkHeap true true third_row_fails)
                      (Some (image 2 3 8 3 2 (fun x y => x))) (Some (str "a.png"))
                      init_stv))) =
    header_trace env_ok (image 2 3 8 3 2 (fun x y => x)) (str "a.png") 2 3.
Proof.
  destruct (vec_result env_ok (mkHeap true true third_row_fails)
              (image 2 3 8 3 2 (fun x y => x)) (str "a.png") 2 3 eq_refl eq_refl) as [Ho Htr].
  rewrite Ho, Htr. vm_compute. split; reflexivity.
Defined.

Lemma vec_single_agree env b tif png_filename :
  fst (save_tiff_as_png_vec env (mkHeap true b (fun _ => malloc_ok env)) tif png_filename
         init_stv) =
    fst (save_tiff_as_png env tif png_filename init_st) /\
  trace (base (snd (save_tiff_as_png_vec env (mkHeap true b (fun _ => malloc_ok env)) tif
                      png_filename init_stv))) =
    trace (snd (save_tiff_as_png env tif png_filename init_st)).
Proof.
  destruct tif as [t|], png_filename as [fn|]; try (split; reflexivity).
  destruct (tag_imagewidth t) as [w|] eqn:Hw, (tag_imagelength t) as [h|] eqn:Hh;
    try (unfold save_tiff_as_png_vec, save_tiff_as_png; rewrite ?Hw, ?Hh; split; reflexivity).
  destruct (save_tiff_as_png_vec _ _ _ _ _) as [o1 sv1] eqn:E1.
  apply save_vec_run with (w := w) (h := h) in E1 as (Htr1 & Hd1); [|assumption..].
  destruct (save_tiff_as_png _ _ _ _) as [o2 s2] eqn:E2.
  apply save_run with (w := w) (h := h) in E2 as (Htr2 & Hd2); [|assumption..].
  simpl in Htr1, Hd1 |- *. rewrite Htr1, Htr2, emitted_trace_split.
  destruct (raster_undefined env (Z.of_N w) (Z.of_N h)) eqn:Hu.
  - rewrite Hd1, Hd2, (header_ok_undefined env t _ _ Hu). split; reflexivity.
  - destruct Hd1 as [-> _], Hd2 as [-> _]. rewrite conversion_ok_split by exact Hu.
    destruct (header_ok env t (Z.of_N w) (Z.of_N h)) eqn:Hok; [|split; reflexivity].
    apply header_ok_dims in Hok as Hdims.
    rewrite forallb_const_seqZ by lia. split; reflexivity.
Qed.

(** X7: When the [resize] of [row_pointers] succeeds and every row's
    [malloc] has the outcome of the single row [malloc] of src/main.cc
    lines 9-110, the revision of part_001 returns the same result and
    makes the same external calls in the same order. *)
Theorem vec_same_as_single_buffer env b tif png_filename :
  fst (save_tiff_as_png_vec env (mkHeap true b (fun _ => malloc_ok env)) tif png_filename
         init_stv) =
    fst (save_tiff_as_png env tif png_filename init_st) /\
  trace (base (snd (save_tiff_as_png_vec env (mkHeap true b (fun _ => malloc_ok env)) tif
                      png_filename init_stv))) =
    trace (snd (save_tiff_as_png env tif png_filename init_st)).
Proof. exact (vec_single_agree env b tif png_filename). Qed.

(** ** The revision of src/main.cc lines 154-279 *)

Lemma manual_vec_agree env heap tif png_filename b :
  fst (save_tiff_as_png_manual env heap tif png_filename init_stv) = Ok b ->
  fst (save_tiff_as_png_vec env heap tif png_filename init_stv) = Ok b /\
  trace (base (snd (save_tiff_as_png_manual env heap tif png_filename init_stv))) =
    trace (base (snd (save_tiff_as_png_vec env heap tif png_filename init_stv))).
Proof.
  intros Hm.
  destruct tif as [t|], png_filename as [fn|]; try (split; [exact Hm | reflexivity]).
  destruct (tag_imagewidth t) as [w|] eqn:Hw, (tag_imagelength t) as [h|] eqn:Hh;
    try (unfold save_tiff_as_png_vec, save_tiff_as_png_manual in *; rewrite ?Hw, ?Hh in *;
         split; [exact Hm | reflexivity]).
  destruct (save_tiff_as_png_manual _ _ _ _ _) as [o1 sv1] eqn:E1.
  apply save_manual_run with (w := w) (h := h) in E1 as (Htr1 & Hd1); [|assumption..].
  destruct (save_tiff_as_png_vec _ _ _ _ _) as [o2 sv2] eqn:E2.
  apply save_vec_run with (w := w) (h := h) in E2 as (Htr2 & Hd2); [|assumption..].
  simpl in Hm, Htr1, Htr2, Hd1, Hd2 |- *. subst o1. rewrite Htr1, Htr2.
  destruct (raster_undefined _ _ _); [discriminate Hd1|].
  destruct Hd2 as [-> _].
  destruct (header_ok env t (Z.of_N w) (Z.of_N h)); simpl in Hd1 |- *;
    [|destruct Hd1 as [Hd1 _]; injection Hd1 as ->; split; reflexivity].
  destruct (vector_ok heap), (row_data_ok heap); simpl in Hd1 |- *; try discriminate Hd1.
  destruct (forallb (row_malloc_ok heap) (seqZ 0 (Z.of_N h))), (write_ok env (Z.of_N h));
    simpl in Hd1 |- *; try discriminate Hd1;
    destruct Hd1 as [Hd1 _]; injection Hd1 as ->; split; reflexivity.
Qed.

(** X8: Whenever the [save_tiff_as_png] of src/main.cc lines 154-279
    returns, with [true] or [false], the one of part_001 returns the same
    result after the same external calls. *)
Theorem manual_same_calls_as_vec env heap tif png_filename b :
  fst (save_tiff_as_png_manual env heap tif png_filename init_stv) = Ok b ->
  fst (save_tiff_as_png_vec env heap tif png_filename init_stv) = Ok b /\
  trace (base (snd (save_tiff_as_png_manual env heap tif png_filename init_stv))) =
    trace (base (snd (save_tiff_as_png_vec env heap tif png_filename init_stv))).
Proof. exact (manual_vec_agree env heap tif png_filename b). Qed.

Lemma manual_same_calls_as_vec_witness :
  fst (save_tiff_as_png_vec env_ok (mkHeap true true third_row_fails)
         (Some (image 2 3 8 3 2 (fun x y => x))) (Some (str "a.png")) init_stv) = Ok false.
Proof.
  destruct (manual_same_calls_as_vec env_ok (mkHeap true true third_row_fails)
              (Some (image 2 3 8 3 2 (fun x y => x))) (Some (str "a.png")) false)
    as [Ho _]; [vm_compute; reflexivity | exact Ho].
Defined.

(** X9: In the revision of src/main.cc lines 154-279, once the steps
    before the rows have succeeded, a failed construction of
    [row_pointers] or [row_data] throws a [std::bad_alloc] that the
    function does not catch; and when both are constructed, every row
    buffer is allocated and a libpng error then occurs in
    [png_write_image] or [png_write_end], the [longjmp] back to the
    [setjmp] of line 213 skips the destructors of the two vectors: the
    behaviour is undefined. *)
Theorem manual_libpng_error_undefined env heap t fn w h :
  tag_imagewidth t = Some w -> tag_imagelength t = Some h ->
  header_ok env t (Z.of_N w) (Z.of_N h) = true ->
  let r := fst (save_tiff_as_png_manual env heap (Some t) (Some fn) init_stv) in
  (vector_ok heap && row_data_ok heap = false -> r = Thrown "std::bad_alloc") /\
  (vector_ok heap && row_data_ok heap && forallb (row_malloc_ok heap) (seqZ 0 (Z.of_N h)) =
     true ->
   write_ok env (Z.of_N h) = false -> r = Undefined).
Proof.
  intros Hw Hh Hok. cbn zeta.
  destruct (save_tiff_as_png_manual _ _ _ _ _) as [o sv'] eqn:E.
  apply save_manual_run with (w := w) (h := h) in E as (_ & Hd); [|assumption..].
  simpl in Hd |- *. rewrite (header_ok_defined env t _ _ Hok), Hok in Hd. simpl in Hd.
  split.
  - intros Hv. rewrite Hv in Hd. exact Hd.
  - intros Hv Hwr. apply andb_true_iff in Hv as [Hv Hr]. rewrite Hv, Hr, Hwr in Hd.
    exact Hd.
Qed.

Lemma manual_libpng_error_undefined_witness :
  fst (save_tiff_as_png_manual env_row1_error (mkHeap true true (fun _ => true))
         (Some (image 2 3 8 3 2 (fun x y => x))) (Some (str "a.png")) init_stv) = Undefined.
Proof.
  destruct (manual_libpng_error_undefined env_row1_error (mkHeap true true (fun _ => true))
              (image 2 3 8 3 2 (fun x y => x)) (str "a.png") 2 3 eq_refl eq_refl)
    as [_ Hu]; [vm_compute; reflexivity|].
  apply Hu; vm_compute; reflexivity.
Defined.

(** ** [main] of the revisions with one buffer per row *)

(** X10: Whenever the [main] of src/main.cc lines 281-322 returns, the one
    of part_001 returns the same exit status after printing the same
    lines, on every command line, in every environment. *)
Theorem main_manual_eq_main_vec w heap argv0 args r :
  main_manual w heap argv0 args = Some r -> main_vec w heap argv0 args = Some r.
Proof.
  unfold main_manual, main_vec.
  destruct args as [|tiff_file args]; [tauto|].
  destruct (TIFFOpen w tiff_file) as [tif|]; [|tauto].
  destruct (fst (save_tiff_as_png_manual _ _ _ _ _)) as [b|e|] eqn:Em;
    [|intros Hm; discriminate Hm..].
  rewrite (proj1 (manual_vec_agree _ _ _ _ b Em)). tauto.
Qed.

Lemma main_manual_eq_main_vec_witness :
  main_vec world_valid_only (mkHeap true true (fun _ => true)) (str "tiff-png")
    [str "valid.tif"] = Some (0, [str "Wrote PNG: valid.png"]).
Proof. apply main_manual_eq_main_vec. vm_compute. reflexivity. Defined.

(** X11: The [main] of part_001 exits with the same status as the one of
    src/main.cc lines 112-153, and returns exactly when that one does, when
    the [resize] of [row_pointers] succeeds and every row's [malloc] has
    the outcome of the single row [malloc] of that revision; it prints the
    same lines, except the line of a success, which reads ["Wrote PNG: "]
    followed by the output name. *)
Theorem main_vec_as_main w b argv0 args :
  main_vec w (mkHeap true b (fun _ => malloc_ok (conv_env w))) argv0 args =
  match main w argv0 args with
  | Some (Z0, _) => Some (0, [str "Wrote PNG: " ++ output_file_of (hd [] args)])
  | r => r
  end.
Proof.
  unfold main_vec, main.
  destruct args as [|tiff_file args]; [reflexivity|].
  destruct (TIFFOpen w tiff_file) as [tif|]; [|reflexivity].
  rewrite (proj1 (vec_single_agree (conv_env w) b (Some tif)
                    (Some (output_file_of tiff_file)))).
  destruct (fst (save_tiff_as_png _ _ _ _)) as [[|]| |]; reflexivity.
Qed.
